(** * Portal user provisioning: [fix_auth_sync.sql] and [portalAuth.ts]

    A shallow embedding of the two stored procedures of the migration
    [database/migrations/fix_auth_sync.sql] and of the two asynchronous
    functions of [src/lib/portalAuth.ts] that call them, followed by the
    properties of the provisioning workflow. *)

From Stdlib Require Import String List ZArith Bool Lia.
Import ListNotations.
Open Scope string_scope.

(** ** Data model *)

Definition uuid := string.
Definition timestamp := Z.

(** SQL [IS NULL] / [IS NOT NULL] on a nullable column. *)
Definition is_null {A} (c : option A) : bool :=
  match c with None => true | Some _ => false end.
Definition is_not_null {A} (c : option A) : bool := negb (is_null c).

(** [public.usuarios]: the columns the migration and the client read or
    write. The table is declared outside the migration; [created_at] is
    taken as a non-null timestamp that an [INSERT] fills with the current
    time. *)
Module usuarios.
Record row := mk {
  id : uuid;
  nome : string;
  email : string;
  tipo_usuario : string;
  tenant_id : uuid;
  created_by : uuid;
  updated_by : uuid;
  created_at : timestamp;
  deleted_at : option timestamp
}.
End usuarios.

(** [public.clientes]. *)
Module clientes.
Record row := mk {
  id : uuid;
  usuario_portal_id : option uuid;
  updated_at : timestamp;
  updated_by : option uuid
}.
End clientes.

(** [auth.users], the table behind [supabase.auth.admin]. *)
Module auth.
Record users := mk {
  id : uuid;
  email : string;
  user_metadata : list (string * string)
}.
End auth.

Record database := mk_database {
  auth_users : list auth.users;
  tbl_usuarios : list usuarios.row;
  tbl_clientes : list clientes.row
}.

Definition set_auth_users (d : database) (t : list auth.users) : database :=
  mk_database t (tbl_usuarios d) (tbl_clientes d).
Definition set_usuarios (d : database) (t : list usuarios.row) : database :=
  mk_database (auth_users d) t (tbl_clientes d).
Definition set_clientes (d : database) (t : list clientes.row) : database :=
  mk_database (auth_users d) (tbl_usuarios d) t.

(** ** The stored procedures *)

(** [DELETE FROM t WHERE p]. *)
Definition delete_where {A} (p : A -> bool) (t : list A) : list A :=
  filter (fun r => negb (p r)) t.

(** [ORDER BY created_at DESC], as a stable insertion sort: among rows of
    equal [created_at] the table order is kept (SQL leaves it open). *)
Fixpoint insert_desc (r : usuarios.row) (l : list usuarios.row) : list usuarios.row :=
  match l with
  | [] => [r]
  | x :: l' =>
      if (usuarios.created_at x <=? usuarios.created_at r)%Z
      then r :: x :: l'
      else x :: insert_desc r l'
  end.

Definition order_by_created_at_desc (l : list usuarios.row) : list usuarios.row :=
  fold_right insert_desc [] l.

Definition limit {A} (n : nat) (l : list A) : list A := firstn n l.

(** [x NOT IN (subquery)] for a subquery over the non-null column [id]. *)
Definition not_in (x : uuid) (sub : list uuid) : bool :=
  negb (existsb (String.eqb x) sub).

(** [WHERE email = p_email AND deleted_at IS NULL]. *)
Definition active_with_email (p_email : string) (r : usuarios.row) : bool :=
  (usuarios.email r =? p_email) && is_null (usuarios.deleted_at r).

(** [public.clean_duplicate_usuarios(p_email)], on the table [usuarios]. *)
Definition clean_duplicate_usuarios (p_email : string) (t : list usuarios.row)
  : list usuarios.row :=
  let t1 :=
    delete_where
      (fun r => (usuarios.email r =? p_email) && is_not_null (usuarios.deleted_at r)) t in
  let keep :=
    map usuarios.id
      (limit 1 (order_by_created_at_desc (filter (active_with_email p_email) t1))) in
  delete_where
    (fun r => (usuarios.email r =? p_email) && not_in (usuarios.id r) keep) t1.

(** Errors a statement can raise inside a PL/pgSQL block: the two
    constraint violations the statements of the migration can meet, the
    two conditions that [WHEN OTHERS] does not trap, and any other
    error. *)
Inductive sql_error :=
| unique_violation (constraint : string)
| foreign_key_violation (constraint : string)
| query_canceled (sqlerrm : string)
| assert_failure (sqlerrm : string)
| other_error (sqlerrm : string).

Definition SQLERRM (e : sql_error) : string :=
  match e with
  | unique_violation c => "duplicate key value violates unique constraint " ++ c
  | foreign_key_violation c =>
      "insert or update on table clientes violates foreign key constraint " ++ c
  | query_canceled m => m
  | assert_failure m => m
  | other_error m => m
  end.

(** The code an error reaches the client with; the code of [other_error]
    is not modelled (it is given as an internal error). *)
Definition SQLSTATE (e : sql_error) : string :=
  match e with
  | unique_violation _ => "23505"
  | foreign_key_violation _ => "23503"
  | query_canceled _ => "57014"
  | assert_failure _ => "P0004"
  | other_error _ => "XX000"
  end.

(** The condition [OTHERS] of an [EXCEPTION] clause matches every error
    but [QUERY_CANCELED] and [ASSERT_FAILURE]. *)
Definition trapped_by_others (e : sql_error) : bool :=
  match e with
  | query_canceled _ | assert_failure _ => false
  | _ => true
  end.

(** A statement or block either raises or yields a value. *)
Definition sql (A : Type) : Type := (sql_error + A)%type.

(** What the table declarations, which the migration does not contain,
    and the server (a statement timeout, a cancel request) make a
    statement raise: [None] when it is accepted and completes. The
    primary key of [usuarios] and the foreign key of
    [clientes.usuario_portal_id] are modelled apart, in [insert_usuarios]
    and [update_clientes]. *)
Record schema_faults := mk_faults {
  on_insert_usuarios : option sql_error;
  on_update_clientes : option sql_error
}.

Definition no_faults : schema_faults := mk_faults None None.

(** Modelled from the spec: the declaration of [public.usuarios] is not
    part of the migration; the spec gives [id] as the primary key of the
    Profile table, so an [INSERT] of an [id] already present raises a
    uniqueness violation. *)
Definition insert_usuarios (f : schema_faults) (r : usuarios.row)
    (t : list usuarios.row) : sql (list usuarios.row) :=
  if existsb (fun x => usuarios.id x =? usuarios.id r) t
  then inl (unique_violation "usuarios_pkey")
  else match on_insert_usuarios f with
       | Some e => inl e
       | None => inr (t ++ [r])%list
       end.

(** [usuario_portal_id UUID REFERENCES auth.users(id)], the column the
    migration adds: an [UPDATE] that sets it, in some row, to an
    identifier that no row of [auth.users] has violates the foreign key.
    An [UPDATE] that matches no row checks nothing. *)
Definition violates_usuario_portal_fkey (users : list auth.users)
    (p_auth_user_id p_cliente_id : uuid) (t : list clientes.row) : bool :=
  existsb (fun c => clientes.id c =? p_cliente_id) t
  && negb (existsb (fun u => auth.id u =? p_auth_user_id) users).

(** [UPDATE public.clientes SET ... WHERE id = p_cliente_id], with
    [auth.users] as the table the new value references; the foreign key
    is checked when the rows have been updated. *)
Definition update_clientes (f : schema_faults) (now : timestamp)
    (users : list auth.users) (p_auth_user_id p_cliente_id : uuid)
    (t : list clientes.row) : sql (list clientes.row) :=
  match on_update_clientes f with
  | Some e => inl e
  | None =>
      if violates_usuario_portal_fkey users p_auth_user_id p_cliente_id t
      then inl (foreign_key_violation "clientes_usuario_portal_id_fkey")
      else inr (map (fun c =>
                       if clientes.id c =? p_cliente_id
                       then clientes.mk (clientes.id c) (Some p_auth_user_id) now
                                        (Some p_auth_user_id)
                       else c) t)
  end.

(** JSON objects built by [json_build_object]. *)
Inductive json_value := JBool (b : bool) | JString (s : string).
Definition json := list (string * json_value).

Fixpoint json_get (k : string) (j : json) : option json_value :=
  match j with
  | [] => None
  | (k', v) :: j' => if k' =? k then Some v else json_get k j'
  end.

(** The [BEGIN ... ] block of [sync_user_after_auth_creation], before its
    [EXCEPTION] clause. *)
Definition sync_body (f : schema_faults) (now : timestamp)
    (p_auth_user_id : uuid) (p_email p_nome : string) (p_cliente_id : uuid)
    (d : database) : sql (json * database) :=
  match insert_usuarios f
          (usuarios.mk p_auth_user_id p_nome p_email "cliente"
             p_auth_user_id p_auth_user_id p_auth_user_id now None)
          (tbl_usuarios d) with
  | inl e => inl e
  | inr us =>
      match update_clientes f now (auth_users d) p_auth_user_id p_cliente_id
              (tbl_clientes d) with
      | inl e => inl e
      | inr cs =>
          inr ([("success", JBool true);
                ("user_id", JString p_auth_user_id);
                ("message", JString "Usuário sincronizado com sucesso")],
               mk_database (auth_users d) us cs)
      end
  end.

(** [EXCEPTION WHEN OTHERS THEN RETURN ...]: for an error the condition
    traps, the block's changes are rolled back and the handler's value is
    returned; a cancelled query and a failed assertion leave the block as
    they are. *)
Definition exception_when_others {A} (body : sql (A * database))
    (handler : sql_error -> A) (d : database) : sql (A * database) :=
  match body with
  | inl e => if trapped_by_others e then inr (handler e, d) else inl e
  | inr r => inr r
  end.

(** [public.sync_user_after_auth_creation]. *)
Definition sync_user_after_auth_creation (f : schema_faults) (now : timestamp)
    (p_auth_user_id : uuid) (p_email p_nome : string) (p_cliente_id : uuid)
    (d : database) : sql (json * database) :=
  exception_when_others
    (sync_body f now p_auth_user_id p_email p_nome p_cliente_id d)
    (fun e => [("success", JBool false);
               ("error", JString ("Erro ao sincronizar usuário: " ++ SQLERRM e))])
    d.

(** ** The client library: [src/lib/portalAuth.ts] *)

(** The [error] object of a reply ([PostgrestError], [AuthError]). *)
Module ApiError.
Record t := mk { message : string; code : string }.
End ApiError.

(** [{ data, error }], what an awaited call of the client resolves to. *)
Module Reply.
Record t (A : Type) := mk { data : option A; error : option ApiError.t }.
Arguments mk {A} _ _.
Arguments data {A} _.
Arguments error {A} _.
End Reply.

(** A thrown JavaScript [Error]. *)
Inductive exn := Error (message : string).

Definition exn_message (x : exn) : string :=
  match x with Error m => m end.

(** The remote calls the two functions issue, with their arguments. *)
Inductive call :=
| rpc_clean_duplicate_usuarios (p_email : string)
| select_usuarios_eq_email (email : string)
| admin_createUser (email password : string) (user_metadata : list (string * string))
| rpc_sync_user_after_auth_creation (p_auth_user_id p_email p_nome p_cliente_id : string)
| admin_deleteUser (id : string)
| select_usuarios_eq_id (id : string)
| admin_listUsers.


(** How one awaited call ends: the server carries the request out; or the
    call resolves with an [error] and the server changed nothing (a
    rejected or rolled back request); or the promise rejects. *)
Inductive outcome :=
| delivered
| rejected (e : ApiError.t)
| thrown (x : exn).

(** Everything one run takes from outside: the outcome of each call, the
    identifier the provider assigns in [createUser] ([None]: a reply
    without [user]), the clock and the faults of the table declarations. *)
Record remote := mk_remote {
  on_clean : outcome;
  on_check : outcome;
  on_createUser : outcome;
  provider_id : option uuid;
  on_sync : outcome;
  faults : schema_faults;
  now : timestamp;
  on_deleteUser : outcome;
  on_verify : outcome;
  on_listUsers : outcome;
  on_lookup : outcome
}.

(** What a call answered, as the trace keeps it. *)
Inductive payload :=
| p_unit
| p_row (r : usuarios.row)
| p_user (u : auth.users)
| p_json (j : json)
| p_users (l : list auth.users).

(** The promise of a call resolves to [{ data, error }], or rejects. *)
Inductive answer :=
| resolved (data : option payload) (error : option ApiError.t)
| promise_rejected (x : exn).

Record event := mk_event { request : call; response : answer }.

(** The state a run threads: the database, and the calls issued so far
    with their answers, oldest first. *)
Record state := mk_state { db : database; trace : list event }.

Definition start (d : database) : state := mk_state d [].

Definition calls (s : state) : list call := map request (trace s).

(** Completion of an asynchronous computation. *)
Inductive completion (A : Type) :=
| returned (a : A)
| threw (x : exn).
Arguments returned {A} _.
Arguments threw {A} _.

Definition async (A : Type) : Type := state -> completion A * state.

Definition ret {A} (a : A) : async A := fun s => (returned a, s).

Definition bind {A B} (m : async A) (k : A -> async B) : async B :=
  fun s => match m s with
           | (returned a, s') => k a s'
           | (threw x, s') => (threw x, s')
           end.

Definition throw {A} (x : exn) : async A := fun s => (threw x, s).

(** [try { body } catch (x) { handler }]: the effects of [body] stay. *)
Definition try_catch {A} (body : async A) (handler : exn -> async A) : async A :=
  fun s => match body s with
           | (returned a, s') => (returned a, s')
           | (threw x, s') => handler x s'
           end.

Notation "x <- m ;; k" := (bind m (fun x => k))
  (at level 61, m at next level, right associativity).
Notation "m ;;; k" := (bind m (fun _ => k))
  (at level 61, right associativity).

(** One awaited call: it ends as the environment says and is recorded
    with its answer. *)
Definition await {A} (show : A -> payload) (c : call) (o : outcome)
    (serve : database -> Reply.t A * database) : async (Reply.t A) :=
  fun s =>
    let record a := (trace s ++ [mk_event c a])%list in
    match o with
    | delivered =>
        let (r, d') := serve (db s) in
        (returned r,
         mk_state d' (record (resolved (option_map show (Reply.data r))
                                       (Reply.error r))))
    | rejected e =>
        (returned (Reply.mk None (Some e)),
         mk_state (db s) (record (resolved None (Some e))))
    | thrown x => (threw x, mk_state (db s) (record (promise_rejected x)))
    end.

(** PostgREST's [.single()]: exactly one row, or error [PGRST116]. *)
Definition single {A} (rows : list A) : Reply.t A :=
  match rows with
  | [r] => Reply.mk (Some r) None
  | _ => Reply.mk None
           (Some (ApiError.mk "JSON object requested, multiple (or no) rows returned"
                              "PGRST116"))
  end.

(** [supabase.rpc('clean_duplicate_usuarios', { p_email })]. *)
Definition rpc_clean (env : remote) (p_email : string) : async (Reply.t unit) :=
  await (fun _ => p_unit) (rpc_clean_duplicate_usuarios p_email) (on_clean env)
    (fun d => (Reply.mk None None,
               set_usuarios d (clean_duplicate_usuarios p_email (tbl_usuarios d)))).

(** [from('usuarios').select(..).eq('email', email).is('deleted_at', null).single()]. *)
Definition select_active_by_email (o : outcome) (email : string)
  : async (Reply.t usuarios.row) :=
  await p_row (select_usuarios_eq_email email) o
    (fun d => (single (filter (active_with_email email) (tbl_usuarios d)), d)).

(** [supabase.auth.admin.createUser], always with [email_confirm: true];
    [data] stands for [authData.user]. *)
Definition createUser (env : remote) (email password : string)
    (user_metadata : list (string * string)) : async (Reply.t auth.users) :=
  await p_user (admin_createUser email password user_metadata) (on_createUser env)
    (fun d => match provider_id env with
              | Some i =>
                  let u := auth.mk i email user_metadata in
                  (Reply.mk (Some u) None, set_auth_users d (auth_users d ++ [u])%list)
              | None => (Reply.mk None None, d)
              end).

(** [supabase.rpc('sync_user_after_auth_creation', {..})]. An error the
    procedure raises reaches the client as [error], with its message and
    code, and the call is rolled back. *)
Definition rpc_sync (env : remote) (p_auth_user_id p_email p_nome p_cliente_id : string)
  : async (Reply.t json) :=
  await p_json
    (rpc_sync_user_after_auth_creation p_auth_user_id p_email p_nome p_cliente_id)
    (on_sync env)
    (fun d => match sync_user_after_auth_creation (faults env) (now env)
                      p_auth_user_id p_email p_nome p_cliente_id d with
              | inr (j, d') => (Reply.mk (Some j) None, d')
              | inl e => (Reply.mk None (Some (ApiError.mk (SQLERRM e) (SQLSTATE e))), d)
              end).

(** [supabase.auth.admin.deleteUser(id)]. A deletion that the database
    refuses, as the foreign key of [clientes.usuario_portal_id] does for
    an identifier a row of [clientes] references, is a [rejected] call. *)
Definition deleteUser (env : remote) (id : uuid) : async (Reply.t unit) :=
  await (fun _ => p_unit) (admin_deleteUser id) (on_deleteUser env)
    (fun d => (Reply.mk None None,
               set_auth_users d
                 (delete_where (fun u => auth.id u =? id) (auth_users d)))).

(** [from('usuarios').select(..).eq('id', id).single()]. *)
Definition select_by_id (env : remote) (id : uuid) : async (Reply.t usuarios.row) :=
  await p_row (select_usuarios_eq_id id) (on_verify env)
    (fun d => (single (filter (fun r => usuarios.id r =? id) (tbl_usuarios d)), d)).

(** [supabase.auth.admin.listUsers()]; [data] stands for [authUsers.users]. *)
Definition listUsers (env : remote) : async (Reply.t (list auth.users)) :=
  await p_users admin_listUsers (on_listUsers env)
    (fun d => (Reply.mk (Some (auth_users d)) None, d)).

(** [interface CreatePortalUserResponse]. *)
Record CreatePortalUserResponse := mk_response {
  success : bool;
  error : option string;
  message : option string;
  userId : option string
}.

(** JavaScript [s || d] on strings: the empty string is falsy. *)
Definition or_else (s d : string) : string := if s =? "" then d else s.

(** Truthiness of [syncResult?.success]. *)
Definition truthy (v : option json_value) : bool :=
  match v with
  | Some (JBool b) => b
  | Some (JString s) => negb (s =? "")
  | None => false
  end.

(** The message of [new Error(syncResult?.error || 'Erro desconhecido na
    sincronização')]. *)
Definition sync_failure_message (syncResult : option json) : string :=
  match syncResult with
  | Some j =>
      match json_get "error" j with
      | Some (JString s) => or_else s "Erro desconhecido na sincronização"
      | Some (JBool true) => "true"
      | _ => "Erro desconhecido na sincronização"
      end
  | None => "Erro desconhecido na sincronização"
  end.

(** [try { await supabase.auth.admin.deleteUser(authUserId) } catch (deleteError) { console.error(..) }]:
    the reply is not inspected and a rejection is swallowed. *)
Definition revert_auth_user (env : remote) (authUserId : uuid) : async unit :=
  try_catch (deleteUser env authUserId ;;; ret tt) (fun _ => ret tt).

(** [createPortalUser]. The [console] calls are left out. *)
Definition createPortalUser (env : remote)
    (email password nomeCliente clienteId : string)
  : async CreatePortalUserResponse :=
  try_catch
    (rpc_clean env email ;;;
     chk <- select_active_by_email (on_check env) email ;;
     match Reply.error chk with
     | Some checkError =>
         if negb (ApiError.code checkError =? "PGRST116")
         then throw (Error ("Erro ao verificar usuário existente: "
                              ++ ApiError.message checkError))
         else ret tt
     | None => ret tt
     end ;;;
     match Reply.data chk with
     | Some existingUser =>
         ret (mk_response false (Some "Este email já está cadastrado no sistema")
                None None)
     | None =>
         authData <- createUser env email password
                       [("nome", nomeCliente); ("tipo_usuario", "cliente");
                        ("cliente_id", clienteId)] ;;
         match Reply.error authData with
         | Some authError =>
             throw (Error ("Erro na autenticação: " ++ ApiError.message authError))
         | None => ret tt
         end ;;;
         match Reply.data authData with
         | None => throw (Error "Usuário não foi criado corretamente")
         | Some user =>
             let authUserId := auth.id user in
             sync <- rpc_sync env authUserId email nomeCliente clienteId ;;
             match Reply.error sync with
             | Some syncError =>
                 revert_auth_user env authUserId ;;;
                 throw (Error ("Erro ao sincronizar usuário: "
                                 ++ ApiError.message syncError))
             | None => ret tt
             end ;;;
             (if truthy (match Reply.data sync with
                         | Some j => json_get "success" j
                         | None => None
                         end)
              then ret tt
              else revert_auth_user env authUserId ;;;
                   throw (Error (sync_failure_message (Reply.data sync)))) ;;;
             verify <- select_by_id env authUserId ;;
             match Reply.error verify, Reply.data verify with
             | None, Some verifyUser =>
                 ret (mk_response true None
                        (Some "Portal criado com sucesso! O cliente pode agora fazer login.")
                        (Some authUserId))
             | _, _ => throw (Error "Usuário criado mas não encontrado na verificação")
             end
         end
     end)
    (fun x =>
       ret (mk_response false
              (Some (or_else (exn_message x) "Erro interno do servidor")) None None)).

(** The object [testUserSync] returns. *)
Record SyncReport := mk_report {
  authId : uuid;
  publicId : uuid;
  idsMatch : bool
}.

(** [testUserSync]; [None] is the [undefined] of a bare [return]. Reading
    a property of a missing [data] throws a [TypeError]. *)
Definition testUserSync (env : remote) (email : string) : async (option SyncReport) :=
  try_catch
    (authUsers <- listUsers env ;;
     match Reply.error authUsers with
     | Some authError => ret None
     | None =>
         match Reply.data authUsers with
         | None => throw (Error "Cannot read properties of null")
         | Some users =>
             match find (fun u => auth.email u =? email) users with
             | None => ret None
             | Some authUser =>
                 publicUser <- select_active_by_email (on_lookup env) email ;;
                 match Reply.error publicUser with
                 | Some publicError => ret None
                 | None =>
                     match Reply.data publicUser with
                     | None => throw (Error "Cannot read properties of null")
                     | Some p =>
                         ret (Some (mk_report (auth.id authUser) (usuarios.id p)
                                      (auth.id authUser =? usuarios.id p)))
                     end
                 end
             end
         end
     end)
    (fun _ => ret None).

(** ** Notions the properties of the stored procedures are stated with *)

(** The rows the subquery of the second [DELETE] ranges over: the
    non-deleted rows of an email. *)
Definition active_rows (p_email : string) (t : list usuarios.row)
  : list usuarios.row :=
  filter (active_with_email p_email) t.

(** The soft-deleted rows of an email. *)
Definition soft_deleted_rows (p_email : string) (t : list usuarios.row)
  : list usuarios.row :=
  filter (fun r => (usuarios.email r =? p_email)
                   && is_not_null (usuarios.deleted_at r)) t.

(** The rows of every other email. *)
Definition other_rows (p_email : string) (t : list usuarios.row)
  : list usuarios.row :=
  filter (fun r => negb (usuarios.email r =? p_email)) t.

(** The identifiers the subquery returns: none, or the one kept. *)
Definition kept_ids (p_email : string) (t : list usuarios.row) : list uuid :=
  map usuarios.id (limit 1 (order_by_created_at_desc (active_rows p_email t))).

(** A table with nothing to clean for [p_email]: no soft-deleted row and
    at most one row of that email. *)
Definition no_duplicates (p_email : string) (t : list usuarios.row) : bool :=
  forallb (fun r => negb (usuarios.email r =? p_email)
                    || is_null (usuarios.deleted_at r)) t
  && Nat.leb (length (filter (fun r => usuarios.email r =? p_email) t)) 1.

(** The condition of the spec, no duplicates for the email, in its own
    words: at most one row of [usuarios] has it. *)
Definition at_most_one_row (p_email : string) (t : list usuarios.row) : bool :=
  Nat.leb (length (filter (fun r => usuarios.email r =? p_email) t)) 1.

(** ** Notions the properties of the client are stated with *)

(** The [user_metadata] of step 3. *)
Definition metadata (nomeCliente clienteId : string) : list (string * string) :=
  [("nome", nomeCliente); ("tipo_usuario", "cliente"); ("cliente_id", clienteId)].

(** The identity the provider creates in step 3 when it assigns [i]. *)
Definition identity (i : uuid) (email nomeCliente clienteId : string) : auth.users :=
  auth.mk i email (metadata nomeCliente clienteId).

(** The row the synchronization procedure inserts. *)
Definition profile (i : uuid) (email nome : string) (t : timestamp) : usuarios.row :=
  usuarios.mk i nome email "cliente" i i i t None.

(** The table [usuarios] once step 1 is over. *)
Definition usuarios_after_clean (env : remote) (email : string) (d : database)
  : list usuarios.row :=
  match on_clean env with
  | delivered => clean_duplicate_usuarios email (tbl_usuarios d)
  | _ => tbl_usuarios d
  end.

(** The [success] field of an answered [data]. *)
Definition success_of (data : option payload) : option json_value :=
  match data with
  | Some (p_json j) => json_get "success" j
  | _ => None
  end.

(** Step 4 failed: the call resolved with an [error], or with a structure
    whose [success] is not truthy. *)
Definition sync_reported_failure (a : answer) : bool :=
  match a with
  | resolved _ (Some _) => true
  | resolved data None => negb (truthy (success_of data))
  | promise_rejected _ => false
  end.

(** Step 6 failed: the row was not read back. *)
Definition verification_failed (a : answer) : bool :=
  match a with
  | resolved (Some _) None => false
  | _ => true
  end.

(** The same environment with another outcome for [deleteUser]. *)
Definition set_on_deleteUser (env : remote) (o : outcome) : remote :=
  mk_remote (on_clean env) (on_check env) (on_createUser env) (provider_id env)
            (on_sync env) (faults env) (now env) o (on_verify env)
            (on_listUsers env) (on_lookup env).

(** ** Concrete data *)

(** The scenario of the spec: email a@b.com, password secret1, name Ana,
    customer c-1, and a provider that assigns the identifier X. *)
Definition ana : usuarios.row := profile "X" "a@b.com" "Ana" 7%Z.

Definition all_delivered (i : uuid) (t : timestamp) : remote :=
  mk_remote delivered delivered delivered (Some i) delivered no_faults t
            delivered delivered delivered delivered.

Definition db0 : database :=
  mk_database [] [] [clientes.mk "c-1" None 0%Z None].

Definition run_success : completion CreatePortalUserResponse * state :=
  createPortalUser (all_delivered "X" 7%Z) "a@b.com" "secret1" "Ana" "c-1" (start db0).

Definition response_ok : CreatePortalUserResponse :=
  mk_response true None
    (Some "Portal criado com sucesso! O cliente pode agora fazer login.")
    (Some "X").

(** A table with a soft-deleted row, two non-deleted rows of one email and
    a row of another email. *)
Definition old_ana : usuarios.row :=
  usuarios.mk "D" "Ana" "a@b.com" "cliente" "D" "D" "D" 1%Z (Some 2%Z).
Definition first_ana : usuarios.row :=
  usuarios.mk "P" "Ana" "a@b.com" "cliente" "P" "P" "P" 3%Z None.
Definition last_ana : usuarios.row :=
  usuarios.mk "Q" "Ana" "a@b.com" "cliente" "Q" "Q" "Q" 9%Z None.
Definition bia : usuarios.row :=
  usuarios.mk "B" "Bia" "b@b.com" "cliente" "B" "B" "B" 4%Z None.

Definition tbl_duplicates : list usuarios.row := [old_ana; first_ana; bia; last_ana].

(** A database where the email has a soft-deleted row and a non-deleted
    one. *)
Definition db_leftover : database :=
  mk_database [] [old_ana; first_ana] [clientes.mk "c-1" None 0%Z None].

Definition run_leftover : completion CreatePortalUserResponse * state :=
  createPortalUser (all_delivered "X" 7%Z) "a@b.com" "secret1" "Ana" "c-1"
    (start db_leftover).

(** The provider refuses the new user. *)
Definition already_registered : ApiError.t :=
  ApiError.mk "User already registered" "email_exists".

Definition env_auth_rejected : remote :=
  mk_remote delivered delivered (rejected already_registered) None delivered
            no_faults 7%Z delivered delivered delivered delivered.

Definition run_auth_rejected : completion CreatePortalUserResponse * state :=
  createPortalUser env_auth_rejected "a@b.com" "secret1" "Ana" "c-1" (start db0).

(** The synchronization call is refused; the compensating delete is
    carried out, or refused too. *)
Definition permission_denied : ApiError.t :=
  ApiError.mk "permission denied for function sync_user_after_auth_creation" "42501".

Definition env_sync_rejected : remote :=
  mk_remote delivered delivered delivered (Some "X") (rejected permission_denied)
            no_faults 7%Z delivered delivered delivered delivered.

Definition env_uncompensated : remote :=
  set_on_deleteUser env_sync_rejected (rejected (ApiError.mk "User not allowed" "not_admin")).

Definition run_sync_rejected : completion CreatePortalUserResponse * state :=
  createPortalUser env_sync_rejected "a@b.com" "secret1" "Ana" "c-1" (start db0).

Definition run_uncompensated : completion CreatePortalUserResponse * state :=
  createPortalUser env_uncompensated "a@b.com" "secret1" "Ana" "c-1" (start db0).

(** The re-fetch of step 6 is refused. *)
Definition timed_out : ApiError.t := ApiError.mk "canceling statement due to statement timeout" "57014".

Definition env_verify_rejected : remote :=
  mk_remote delivered delivered delivered (Some "X") delivered no_faults 7%Z
            delivered (rejected timed_out) delivered delivered.

Definition run_verify_rejected : completion CreatePortalUserResponse * state :=
  createPortalUser env_verify_rejected "a@b.com" "secret1" "Ana" "c-1" (start db0).

(** A synchronized pair, and a database without the customer c-1. *)
Definition db_synced : database :=
  mk_database [identity "X" "a@b.com" "Ana" "c-1"] [ana]
              [clientes.mk "c-1" (Some "X") 7%Z (Some "X")].

Definition db_no_customer : database := mk_database [] [] [].

Definition run_no_customer : completion CreatePortalUserResponse * state :=
  createPortalUser (all_delivered "X" 7%Z) "a@b.com" "secret1" "Ana" "c-1"
    (start db_no_customer).

(** ** The pre-check procedure of the migration *)


(** The rows of an email, deleted or not. *)
Definition rows_with_email (p_email : string) (t : list usuarios.row)
  : list usuarios.row :=
  filter (fun r => usuarios.email r =? p_email) t.

(** ** More concrete data *)

(** Step 1 is refused and the email has two non-deleted rows. *)
Definition env_clean_rejected : remote :=
  mk_remote (rejected permission_denied) delivered delivered (Some "X") delivered
            no_faults 10%Z delivered delivered delivered delivered.

Definition db_two_active : database :=
  mk_database [] [first_ana; last_ana] [clientes.mk "c-1" None 0%Z None].

Definition run_two_active : completion CreatePortalUserResponse * state :=
  createPortalUser env_clean_rejected "a@b.com" "secret1" "Ana" "c-1"
    (start db_two_active).

(** A second provisioning of the email of [run_success], by another
    caller, for another customer. *)
Definition run_again : completion CreatePortalUserResponse * state :=
  createPortalUser (all_delivered "Z" 9%Z) "a@b.com" "other-secret" "Ana Maria" "c-2"
    (start (db (snd run_success))).

(** ** The React hook [useCreatePortalUser] *)

Inductive toast :=
| toast_success (text : string)
| toast_error (text : string).

(** What the hook shows: its [loading] state and the toasts it has
    raised, oldest first. *)
Record ui := mk_ui { loading : bool; toasts : list toast }.

Definition setLoading (b : bool) (u : ui) : ui := mk_ui b (toasts u).

Definition show_toast (t : toast) (u : ui) : ui :=
  mk_ui (loading u) (toasts u ++ [t])%list.

(** JavaScript [o || d] for an optional string [o]. *)
Definition or_else_opt (o : option string) (d : string) : string :=
  match o with
  | Some s => or_else s d
  | None => d
  end.

(** The [createUser] the hook returns: [try], [catch] and [finally]. *)
Definition useCreatePortalUser_createUser (env : remote)
    (email password nomeCliente clienteId : string) (u : ui) (s : state)
  : completion CreatePortalUserResponse * ui * state :=
  let u1 := setLoading true u in
  let '(c, u2, s2) :=
    match createPortalUser env email password nomeCliente clienteId s with
    | (returned result, s') =>
        if success result
        then (returned result,
              show_toast (toast_success
                            (or_else_opt (message result) "Portal criado com sucesso!"))
                u1,
              s')
        else (returned result,
              show_toast (toast_error
                            (or_else_opt (error result) "Erro ao criar portal")) u1,
              s')
    | (threw x, s') =>
        let errorMessage := or_else (exn_message x) "Erro inesperado ao criar portal" in
        (returned (mk_response false (Some errorMessage) None None),
         show_toast (toast_error errorMessage) u1,
         s')
    end in
  (c, setLoading false u2, s2).

(** The names [portalAuth.ts] binds at module level: its two imports,
    [supabase] and [toast], and its three functions. [useState] is not
    among them. *)
Definition portalAuth_scope : list string :=
  ["supabase"; "toast"; "createPortalUser"; "useCreatePortalUser"; "testUserSync"].

(** Evaluating a name inside a function of a module: the module binds
    it, or else the global object does, or else a [ReferenceError] is
    thrown, kept here by its message. *)
Definition resolve_name (scope globals : list string) (name : string)
  : completion unit :=
  if existsb (String.eqb name) (scope ++ globals)%list
  then returned tt
  else threw (Error (name ++ " is not defined")).

(** What the hook returns: [{ createUser, loading }]. *)
Module Hook.
Record t := mk {
  createUser : remote -> string -> string -> string -> string -> ui -> state
               -> completion CreatePortalUserResponse * ui * state;
  loading : bool
}.
End Hook.

(** [useCreatePortalUser()], given the names the global object binds. Its
    first statement evaluates [useState]; a [useState] of the global
    object is taken to be React's. *)
Definition useCreatePortalUser (globals : list string) (u : ui)
  : completion Hook.t :=
  match resolve_name portalAuth_scope globals "useState" with
  | threw x => threw x
  | returned _ => returned (Hook.mk useCreatePortalUser_createUser (loading u))
  end.

(** The first run of the scenario through the hook, and a refused one. *)
Definition ui0 : ui := mk_ui false [].

Definition hook_success : completion CreatePortalUserResponse * ui * state :=
  useCreatePortalUser_createUser (all_delivered "X" 7%Z) "a@b.com" "secret1" "Ana"
    "c-1" ui0 (start db0).

Definition hook_auth_rejected : completion CreatePortalUserResponse * ui * state :=
  useCreatePortalUser_createUser env_auth_rejected "a@b.com" "secret1" "Ana" "c-1"
    ui0 (start db0).

(** ** The modal [PortalCreationModal]

    The strings of the form are taken as their sequences of UTF-16 code
    units, each below 256, one [ascii] a unit: [length], the character
    classes of the pattern and [trim] then read as in JavaScript. *)

From Stdlib Require Import Ascii.

(** Regular expressions over code units, matched by derivatives. *)
Inductive regex :=
| Empty
| Eps
| Chars (p : ascii -> bool)
| Seq (r1 r2 : regex)
| Alt (r1 r2 : regex)
| Star (r : regex).

(** [r+]. *)
Definition Plus (r : regex) : regex := Seq r (Star r).

Fixpoint nullable (r : regex) : bool :=
  match r with
  | Empty => false
  | Eps => true
  | Chars _ => false
  | Seq r1 r2 => nullable r1 && nullable r2
  | Alt r1 r2 => nullable r1 || nullable r2
  | Star _ => true
  end.

Fixpoint deriv (c : ascii) (r : regex) : regex :=
  match r with
  | Empty => Empty
  | Eps => Empty
  | Chars p => if p c then Eps else Empty
  | Seq r1 r2 =>
      if nullable r1
      then Alt (Seq (deriv c r1) r2) (deriv c r2)
      else Seq (deriv c r1) r2
  | Alt r1 r2 => Alt (deriv c r1) (deriv c r2)
  | Star r1 => Seq (deriv c r1) (Star r1)
  end.

Fixpoint matches (r : regex) (l : list ascii) : bool :=
  match l with
  | [] => nullable r
  | c :: l' => matches (deriv c r) l'
  end.

(** [/^r$/.test(s)]. *)
Definition regex_test (r : regex) (s : string) : bool :=
  matches r (list_ascii_of_string s).

(** The words of a regular expression. *)
Inductive lang : regex -> list ascii -> Prop :=
| lang_eps : lang Eps []
| lang_chars p c : p c = true -> lang (Chars p) [c]
| lang_seq r1 r2 l1 l2 : lang r1 l1 -> lang r2 l2 -> lang (Seq r1 r2) (l1 ++ l2)
| lang_alt_l r1 r2 l : lang r1 l -> lang (Alt r1 r2) l
| lang_alt_r r1 r2 l : lang r2 l -> lang (Alt r1 r2) l
| lang_star_nil r : lang (Star r) []
| lang_star_cons r l1 l2 : lang r l1 -> lang (Star r) l2 -> lang (Star r) (l1 ++ l2).

(** [\s] on code units below 256: tab, line feed, vertical tab, form
    feed, carriage return, space and no-break space. *)
Definition is_space (c : ascii) : bool :=
  let n := nat_of_ascii c in
  (Nat.leb 9 n && Nat.leb n 13) || Nat.eqb n 32 || Nat.eqb n 160.

(** [[^\s@]]. *)
Definition not_space_nor_at (c : ascii) : bool :=
  negb (is_space c || Ascii.eqb c "@"%char).

(** [/^[^\s@]+@[^\s@]+\.[^\s@]+$/]. *)
Definition email_pattern : regex :=
  Seq (Plus (Chars not_space_nor_at))
    (Seq (Chars (Ascii.eqb "@"%char))
       (Seq (Plus (Chars not_space_nor_at))
          (Seq (Chars (Ascii.eqb "."%char))
             (Plus (Chars not_space_nor_at))))).

(** [String.prototype.trim]. *)
Fixpoint trimStart (l : list ascii) : list ascii :=
  match l with
  | c :: l' => if is_space c then trimStart l' else l
  | [] => []
  end.

Definition trimEnd (l : list ascii) : list ascii :=
  rev (trimStart (rev l)).

Definition trim (s : string) : string :=
  string_of_list_ascii (trimEnd (trimStart (list_ascii_of_string s))).

(** [interface Cliente]. *)
Module Cliente.
Record t := mk {
  id : string;
  nome : string;
  email : string;
  telefone : option string;
  usuario_portal_id : option string
}.
End Cliente.

(** The [formData] state. *)
Module FormData.
Record t := mk {
  email : string;
  password : string;
  confirmPassword : string;
  nomeCliente : string
}.
End FormData.

(** The [formErrors] state, a [Record<string, string>] in which only
    these four keys are ever written: [None] is an absent key. *)
Module FormErrors.
Record t := mk {
  email : option string;
  password : option string;
  confirmPassword : option string;
  nomeCliente : option string
}.
End FormErrors.

(** The four names [handleInputChange] is called with. *)
Inductive field := f_email | f_password | f_confirmPassword | f_nomeCliente.

Definition get_data (f : field) (d : FormData.t) : string :=
  match f with
  | f_email => FormData.email d
  | f_password => FormData.password d
  | f_confirmPassword => FormData.confirmPassword d
  | f_nomeCliente => FormData.nomeCliente d
  end.

(** [{ ...prev, [field]: value }]. *)
Definition set_data (f : field) (v : string) (d : FormData.t) : FormData.t :=
  match f with
  | f_email =>
      FormData.mk v (FormData.password d) (FormData.confirmPassword d)
                  (FormData.nomeCliente d)
  | f_password =>
      FormData.mk (FormData.email d) v (FormData.confirmPassword d)
                  (FormData.nomeCliente d)
  | f_confirmPassword =>
      FormData.mk (FormData.email d) (FormData.password d) v
                  (FormData.nomeCliente d)
  | f_nomeCliente =>
      FormData.mk (FormData.email d) (FormData.password d)
                  (FormData.confirmPassword d) v
  end.

Definition get_error (f : field) (e : FormErrors.t) : option string :=
  match f with
  | f_email => FormErrors.email e
  | f_password => FormErrors.password e
  | f_confirmPassword => FormErrors.confirmPassword e
  | f_nomeCliente => FormErrors.nomeCliente e
  end.

Definition set_error (f : field) (v : string) (e : FormErrors.t) : FormErrors.t :=
  match f with
  | f_email =>
      FormErrors.mk (Some v) (FormErrors.password e) (FormErrors.confirmPassword e)
                    (FormErrors.nomeCliente e)
  | f_password =>
      FormErrors.mk (FormErrors.email e) (Some v) (FormErrors.confirmPassword e)
                    (FormErrors.nomeCliente e)
  | f_confirmPassword =>
      FormErrors.mk (FormErrors.email e) (FormErrors.password e) (Some v)
                    (FormErrors.nomeCliente e)
  | f_nomeCliente =>
      FormErrors.mk (FormErrors.email e) (FormErrors.password e)
                    (FormErrors.confirmPassword e) (Some v)
  end.

(** [{}]. *)
Definition no_errors : FormErrors.t := FormErrors.mk None None None None.

(** [Object.keys(errors).length === 0]. *)
Definition has_no_key (e : FormErrors.t) : bool :=
  is_null (FormErrors.email e) && is_null (FormErrors.password e)
  && is_null (FormErrors.confirmPassword e) && is_null (FormErrors.nomeCliente e).

(** A string or an optional string used as a condition. *)
Definition is_empty (s : string) : bool := s =? "".

Definition truthy_opt (o : option string) : bool :=
  match o with
  | Some s => negb (is_empty s)
  | None => false
  end.

(** The state of the component, with the number of calls of the
    [onSuccess] prop. *)
Record modal := mk_modal {
  isOpen : bool;
  formData : FormData.t;
  showPassword : bool;
  showConfirmPassword : bool;
  formErrors : FormErrors.t;
  onSuccess_calls : nat
}.

(** The [errors] object [validateForm] builds. *)
Definition validation_errors (d : FormData.t) : FormErrors.t :=
  FormErrors.mk
    (if is_empty (FormData.email d) then Some "Email é obrigatório"
     else if negb (regex_test email_pattern (FormData.email d))
          then Some "Email inválido"
          else None)
    (if is_empty (FormData.password d) then Some "Senha é obrigatória"
     else if Nat.ltb (String.length (FormData.password d)) 6
          then Some "Senha deve ter pelo menos 6 caracteres"
          else None)
    (if is_empty (FormData.confirmPassword d)
     then Some "Confirmação de senha é obrigatória"
     else if negb (FormData.password d =? FormData.confirmPassword d)
          then Some "Senhas não coincidem"
          else None)
    (if is_empty (trim (FormData.nomeCliente d))
     then Some "Nome do cliente é obrigatório"
     else None).

(** [validateForm]: the new state and the returned boolean. *)
Definition validateForm (m : modal) : bool * modal :=
  let errors := validation_errors (formData m) in
  (has_no_key errors,
   mk_modal (isOpen m) (formData m) (showPassword m) (showConfirmPassword m)
            errors (onSuccess_calls m)).

(** The initial [formData], also the one [handleSubmit] resets to:
    [cliente.email || ''] and [cliente.nome || '']. *)
Definition initial_formData (cliente : Cliente.t) : FormData.t :=
  FormData.mk (Cliente.email cliente) "" "" (Cliente.nome cliente).

(** What a handler works on: the component, the hook and the toasts, and
    the remote state. *)
Record session := mk_session { view : modal; hook : ui; remote_state : state }.

(** [handleSubmit], as one step: no other handler runs while it awaits.
    [createUser] is the function the hook returned to the render. *)
Definition handleSubmit
    (createUser : string -> string -> string -> string -> ui -> state
                  -> completion CreatePortalUserResponse * ui * state)
    (cliente : Cliente.t) (a : session) : session :=
  let (valid, m1) := validateForm (view a) in
  if negb valid then mk_session m1 (hook a) (remote_state a)
  else
    match createUser
            (FormData.email (formData m1)) (FormData.password (formData m1))
            (FormData.nomeCliente (formData m1)) (Cliente.id cliente)
            (hook a) (remote_state a) with
    | (returned result, u, s) =>
        if success result
        then mk_session (mk_modal false (initial_formData cliente) (showPassword m1)
                              (showConfirmPassword m1) no_errors
                              (S (onSuccess_calls m1)))
                    u s
        else mk_session m1 u s
    | (threw _, u, s) => mk_session m1 u s
    end.

(** [handleInputChange]. *)
Definition handleInputChange (f : field) (value : string) (m : modal) : modal :=
  mk_modal (isOpen m) (set_data f value (formData m)) (showPassword m)
           (showConfirmPassword m)
           (if truthy_opt (get_error f (formErrors m))
            then set_error f "" (formErrors m)
            else formErrors m)
           (onSuccess_calls m).

(** [handleTestSync], as one step. *)
Definition handleTestSync (env : remote) (a : session) : session :=
  if is_empty (FormData.email (formData (view a)))
  then mk_session (view a) (show_toast (toast_error "Digite um email para testar") (hook a))
              (remote_state a)
  else
    match testUserSync env (FormData.email (formData (view a))) (remote_state a) with
    | (returned (Some result), s) =>
        mk_session (view a)
          (show_toast (if idsMatch result
                       then toast_success "✅ IDs sincronizados corretamente!"
                       else toast_error "❌ IDs não estão sincronizados")
             (hook a))
          s
    | (_, s) => mk_session (view a) (hook a) s
    end.

(** The handlers one render of the component defines. *)
Module Modal.
Record t := mk {
  validateForm : modal -> bool * modal;
  handleSubmit : session -> session;
  handleInputChange : field -> string -> modal -> modal;
  handleTestSync : session -> session
}.
End Modal.

(** One render of [PortalCreationModal] on the state [a]: the [useState]
    calls of the component, which imports [useState] from React, then
    [useCreatePortalUser()] at line 38, then the handlers. *)
Definition PortalCreationModal (globals : list string) (env : remote)
    (cliente : Cliente.t) (a : session) : completion Modal.t :=
  match useCreatePortalUser globals (hook a) with
  | threw x => threw x
  | returned h =>
      returned (Modal.mk validateForm
                  (handleSubmit (Hook.createUser h env) cliente)
                  handleInputChange
                  (handleTestSync env))
  end.

(** A filled form for the customer c-1, a form with a short password,
    and the states the handlers start from. *)
Definition cliente1 : Cliente.t := Cliente.mk "c-1" "Ana" "a@b.com" None None.

Definition form_ok : FormData.t := FormData.mk "a@b.com" "secret1" "secret1" "Ana".

Definition form_short : FormData.t := FormData.mk "a@b.com" "abc" "abc" "Ana".

Definition app_with (d : FormData.t) (db : database) : session :=
  mk_session (mk_modal true d false false no_errors 0) ui0 (start db).

(** Environments in which one call goes wrong, and their runs. *)
Definition env_check_rejected : remote :=
  mk_remote delivered (rejected timed_out) delivered (Some "X") delivered
            no_faults 7%Z delivered delivered delivered delivered.

Definition run_check_rejected : completion CreatePortalUserResponse * state :=
  createPortalUser env_check_rejected "a@b.com" "secret1" "Ana" "c-1" (start db0).

Definition env_no_user : remote :=
  mk_remote delivered delivered delivered None delivered
            no_faults 7%Z delivered delivered delivered delivered.

Definition run_no_user : completion CreatePortalUserResponse * state :=
  createPortalUser env_no_user "a@b.com" "secret1" "Ana" "c-1" (start db0).

Definition env_sync_thrown : remote :=
  mk_remote delivered delivered delivered (Some "X") (thrown (Error "Failed to fetch"))
            no_faults 7%Z delivered delivered delivered delivered.

Definition run_sync_thrown : completion CreatePortalUserResponse * state :=
  createPortalUser env_sync_thrown "a@b.com" "secret1" "Ana" "c-1" (start db0).



(** A pair whose identifiers differ, and the diagnostic on it. *)
Definition db_mismatched : database :=
  mk_database [identity "Y" "a@b.com" "Ana" "c-1"] [ana]
              [clientes.mk "c-1" (Some "Y") 7%Z (Some "Y")].

(** A global object without [useState], and one on which a script has
    put React's. *)
Definition globals_plain : list string := ["window"; "document"; "console"].

Definition globals_with_useState : list string := "useState" :: globals_plain.

(** The identifier the provider assigns is already the [id] of a row of
    [usuarios], of another email. *)
Definition bia_as_X : usuarios.row :=
  usuarios.mk "X" "Bia" "b@b.com" "cliente" "X" "X" "X" 4%Z None.

(** What the handler of the procedure returns for that insert. *)
Definition pkey_failure : json :=
  [("success", JBool false);
   ("error", JString ("Erro ao sincronizar usuário: "
                        ++ SQLERRM (unique_violation "usuarios_pkey")))].

Definition db_id_taken : database :=
  mk_database [] [bia_as_X] [clientes.mk "c-1" None 0%Z None].

Definition run_id_taken : completion CreatePortalUserResponse * state :=
  createPortalUser (all_delivered "X" 7%Z) "a@b.com" "secret1" "Ana" "c-1"
    (start db_id_taken).






(** An identity of the email and two non-deleted rows of it. *)
Definition db_two_profiles : database :=
  mk_database [identity "P" "a@b.com" "Ana" "c-1"] [first_ana; last_ana]
              [clientes.mk "c-1" (Some "P") 3%Z (Some "P")].

(** A second identity, of another email, next to the synchronized pair. *)
Definition db_second_identity : database :=
  mk_database [identity "X" "a@b.com" "Ana" "c-1"; identity "Y" "ana@b.com" "Ana" "c-1"]
              [ana] [clientes.mk "c-1" (Some "X") 7%Z (Some "X")].

Definition app_diagnosing (email : string) (db : database) : session :=
  mk_session (mk_modal true (FormData.mk email "" "" "Ana") false false no_errors 0)
         ui0 (start db).

(** ** Symbolic execution of the client

    Tactics that unfold a run of the client and split it on the outcome
    of each call, in the order of the calls. *)

Ltac run_client :=
  unfold createPortalUser, testUserSync, revert_auth_user, try_catch, bind, ret,
    throw, rpc_clean, select_active_by_email, createUser, rpc_sync, deleteUser,
    select_by_id, listUsers, await, single, calls, start in *.

Ltac reduce_in H :=
  cbn beta iota zeta delta
    [fst snd db trace Reply.data Reply.error app single option_map negb
     auth.id map request] in H.

Ltac case_on H :=
  match type of H with
  | context [match on_clean ?e with _ => _ end] => destruct (on_clean e) eqn:?
  | context [match on_check ?e with _ => _ end] => destruct (on_check e) eqn:?
  | context [match filter ?f ?l with _ => _ end] =>
      let E := fresh "Erows" in destruct (filter f l) as [|? [|? ?]] eqn:E
  | context [ApiError.code ?e =? "PGRST116"] =>
      destruct (ApiError.code e =? "PGRST116") eqn:?
  | context [match on_createUser ?e with _ => _ end] =>
      destruct (on_createUser e) eqn:?
  | context [match provider_id ?e with _ => _ end] =>
      destruct (provider_id e) eqn:?
  | context [match on_sync ?e with _ => _ end] => destruct (on_sync e) eqn:?
  | context [match sync_user_after_auth_creation ?f ?t ?i ?e ?n ?c ?d with _ => _ end] =>
      let E := fresh "Esync" in
      destruct (sync_user_after_auth_creation f t i e n c d) as [?|[? ?]] eqn:E
  | context [truthy ?v] =>
      let E := fresh "Etruthy" in destruct (truthy v) eqn:E
  | context [match on_deleteUser ?e with _ => _ end] =>
      destruct (on_deleteUser e) eqn:?
  | context [match on_verify ?e with _ => _ end] => destruct (on_verify e) eqn:?
  | context [match on_listUsers ?e with _ => _ end] =>
      destruct (on_listUsers e) eqn:?
  | context [match on_lookup ?e with _ => _ end] => destruct (on_lookup e) eqn:?
  | context [match find ?f ?l with _ => _ end] =>
      let E := fresh "Efind" in destruct (find f l) eqn:E
  end.

Ltac exec H := run_client; reduce_in H; repeat (case_on H; reduce_in H).

Ltac finish H := injection H as <- <-; cbn [db trace map request] in *.

Ltac reduce_goal :=
  cbn beta iota zeta delta
    [fst snd db trace Reply.data Reply.error app single option_map negb
     auth.id map request set_on_deleteUser on_clean on_check on_createUser
     provider_id on_sync faults now on_deleteUser on_verify].

Ltac case_goal :=
  match goal with
  | |- context [match on_clean ?e with _ => _ end] => destruct (on_clean e)
  | |- context [match on_check ?e with _ => _ end] => destruct (on_check e)
  | |- context [match filter ?f ?l with _ => _ end] =>
      destruct (filter f l) as [|? [|? ?]]
  | |- context [ApiError.code ?e =? "PGRST116"] =>
      destruct (ApiError.code e =? "PGRST116")
  | |- context [match on_createUser ?e with _ => _ end] =>
      destruct (on_createUser e)
  | |- context [match provider_id ?e with _ => _ end] =>
      destruct (provider_id e)
  | |- context [match on_sync ?e with _ => _ end] => destruct (on_sync e)
  | |- context [match sync_user_after_auth_creation ?f ?t ?i ?e ?n ?c ?d with _ => _ end] =>
      destruct (sync_user_after_auth_creation f t i e n c d) as [?|[? ?]]
  | |- context [truthy ?v] => destruct (truthy v)
  | |- context [match on_deleteUser ?e with _ => _ end] =>
      destruct (on_deleteUser e)
  | |- context [match on_verify ?e with _ => _ end] => destruct (on_verify e)
  end.

Ltac pick Hin :=
  simpl in Hin;
  repeat (destruct Hin as [Hin|Hin]);
  try contradiction; try discriminate Hin.

Ltac known_outcomes :=
  repeat match goal with
         | E : on_clean _ = _ |- context [on_clean _] => rewrite E
         | E : on_deleteUser _ = _ |- context [on_deleteUser _] => rewrite E
         end.

(** * Properties

    ** The deduplication procedure *)

Section Deduplication.

Variable p_email : string.

Lemma filter_all {A} (f : A -> bool) (l : list A) :
  (forall x, In x l -> f x = true) -> filter f l = l.
Proof.
  induction l as [|a l IH]; simpl; intros H; [reflexivity|].
  rewrite (H a (or_introl eq_refl)). f_equal. apply IH. intros; apply H; now right.
Qed.

Lemma filter_filter {A} (f g : A -> bool) (l : list A) :
  filter f (filter g l) = filter (fun x => g x && f x) l.
Proof.
  induction l as [|a l IH]; simpl; [reflexivity|].
  destruct (g a); simpl; [destruct (f a)|]; now rewrite IH.
Qed.

Lemma order_by_head (l : list usuarios.row) :
  l <> [] ->
  exists k rest,
    order_by_created_at_desc l = k :: rest /\ In k l /\
    forall x, In x l -> (usuarios.created_at x <= usuarios.created_at k)%Z.
Proof.
  induction l as [|a l IH]; [congruence|]. intros _.
  destruct l as [|b l].
  - exists a, []. simpl. repeat split; auto. intros x [<-|[]]. lia.
  - destruct IH as (k & rest & Hs & Hk & Hmax); [discriminate|].
    change (order_by_created_at_desc (a :: b :: l))
      with (insert_desc a (order_by_created_at_desc (b :: l))).
    rewrite Hs. simpl insert_desc.
    destruct (Z.leb_spec (usuarios.created_at k) (usuarios.created_at a)).
    + exists a, (k :: rest). repeat split; [now left|].
      intros x [<-|Hx]; [lia|]. specialize (Hmax x Hx). lia.
    + exists k, (insert_desc a rest). repeat split; [now right|].
      intros x [<-|Hx]; [lia|]. now apply Hmax.
Qed.

Lemma kept_ids_cases (t : list usuarios.row) :
  (active_rows p_email t = [] /\ kept_ids p_email t = []) \/
  (exists k, In k (active_rows p_email t) /\ kept_ids p_email t = [usuarios.id k] /\
             forall x, In x (active_rows p_email t) ->
                       (usuarios.created_at x <= usuarios.created_at k)%Z).
Proof.
  unfold kept_ids. destruct (active_rows p_email t) as [|a l] eqn:E.
  - left. now split.
  - right. destruct (order_by_head (a :: l)) as (k & rest & Hs & Hk & Hmax);
      [discriminate|].
    exists k. rewrite Hs. now repeat split.
Qed.

(** The two [DELETE]s as one selection over the initial table. *)
Lemma clean_as_filter (t : list usuarios.row) :
  clean_duplicate_usuarios p_email t =
  filter (fun r => negb (usuarios.email r =? p_email)
                   || (is_null (usuarios.deleted_at r)
                       && existsb (String.eqb (usuarios.id r)) (kept_ids p_email t))) t.
Proof.
  unfold clean_duplicate_usuarios, delete_where, kept_ids, active_rows, not_in.
  cbv zeta. rewrite !filter_filter.
  replace (filter (fun x => negb ((usuarios.email x =? p_email)
                                  && is_not_null (usuarios.deleted_at x))
                            && active_with_email p_email x) t)
    with (filter (active_with_email p_email) t).
  - apply filter_ext. intros r. unfold is_not_null.
    destruct (usuarios.email r =? p_email), (is_null (usuarios.deleted_at r));
      simpl; try reflexivity.
    now rewrite negb_involutive.
  - apply filter_ext. intros r. unfold active_with_email, is_not_null.
    now destruct (usuarios.email r =? p_email), (is_null (usuarios.deleted_at r)).
Qed.

Lemma active_rows_clean (t : list usuarios.row) :
  active_rows p_email (clean_duplicate_usuarios p_email t) =
  filter (fun r => existsb (String.eqb (usuarios.id r)) (kept_ids p_email t)) (active_rows p_email t).
Proof.
  rewrite clean_as_filter. unfold active_rows. rewrite !filter_filter.
  apply filter_ext. intros r. unfold active_with_email.
  destruct (usuarios.email r =? p_email), (is_null (usuarios.deleted_at r)),
    (existsb (String.eqb (usuarios.id r)) (kept_ids p_email t)); reflexivity.
Qed.

Lemma filter_absent_id (i : uuid) (l : list usuarios.row) :
  ~ In i (map usuarios.id l) ->
  filter (fun r => existsb (String.eqb (usuarios.id r)) [i]) l = [].
Proof.
  induction l as [|a l IH]; simpl; [reflexivity|]. intros Hnot.
  rewrite orb_false_r.
  destruct (String.eqb_spec (usuarios.id a) i) as [E|_].
  - exfalso. apply Hnot. now left.
  - apply IH. intro H. apply Hnot. now right.
Qed.

Lemma filter_unique_id (k : usuarios.row) (l : list usuarios.row) :
  NoDup (map usuarios.id l) -> In k l ->
  filter (fun r => existsb (String.eqb (usuarios.id r)) [usuarios.id k]) l = [k].
Proof.
  induction l as [|a l IH]; [intros _ []|]. intros Hnd Hin.
  inversion Hnd as [|? ? Hnot Hnd']; subst.
  cbn [filter existsb]. rewrite orb_false_r. destruct Hin as [->|Hin].
  - rewrite String.eqb_refl. f_equal. now apply filter_absent_id.
  - destruct (String.eqb_spec (usuarios.id a) (usuarios.id k)) as [E|_].
    + exfalso. apply Hnot. rewrite E. now apply in_map.
    + now apply IH.
Qed.

Lemma NoDup_map_filter {A B} (g : A -> B) (f : A -> bool) (l : list A) :
  NoDup (map g l) -> NoDup (map g (filter f l)).
Proof.
  induction l as [|a l IH]; simpl; [auto|]. intros Hnd.
  inversion Hnd as [|? ? Hnot Hnd']; subst.
  destruct (f a); simpl; [constructor|]; auto.
  intro H. apply Hnot. apply in_map_iff in H as (x & <- & Hx).
  apply in_map. now apply filter_In in Hx.
Qed.

Lemma at_most_one {A} (l : list A) (a b : A) :
  (length l <= 1)%nat -> In a l -> In b l -> a = b.
Proof.
  destruct l as [|x [|y l]]; simpl; intros H Ha Hb; try lia; intuition congruence.
Qed.

Lemma filter_none {A} (f : A -> bool) (l : list A) :
  (forall x, In x l -> f x = false) -> filter f l = [].
Proof.
  induction l as [|a l IH]; simpl; intros H; [reflexivity|].
  rewrite (H a (or_introl eq_refl)). apply IH. intros; apply H; now right.
Qed.

(** C2: after [clean_duplicate_usuarios(p_email)] on a table whose [id]s
    are unique, no soft-deleted row of the email is left and at most one
    non-deleted row of the email is left; an email with zero or one
    non-deleted row keeps exactly that; with more than one, the row left
    is one of most recent [created_at]; rows of other emails stay. *)
Theorem clean_duplicate_usuarios_keeps_most_recent (t : list usuarios.row) :
  NoDup (map usuarios.id t) ->
  let t' := clean_duplicate_usuarios p_email t in
  soft_deleted_rows p_email t' = [] /\
  (length (active_rows p_email t') <= 1)%nat /\
  ((length (active_rows p_email t) <= 1)%nat ->
   active_rows p_email t' = active_rows p_email t) /\
  ((1 < length (active_rows p_email t))%nat ->
   exists k, active_rows p_email t' = [k] /\ In k (active_rows p_email t) /\
             forall x, In x (active_rows p_email t) ->
                       (usuarios.created_at x <= usuarios.created_at k)%Z) /\
  other_rows p_email t' = other_rows p_email t.
Proof.
  intros Hnd t'.
  assert (Hsd : soft_deleted_rows p_email t' = []).
  { subst t'. rewrite clean_as_filter. unfold soft_deleted_rows.
    rewrite filter_filter. apply filter_none. intros r _. unfold is_not_null.
    destruct (usuarios.email r =? p_email), (is_null (usuarios.deleted_at r));
      simpl; auto using andb_false_r. }
  assert (Hother : other_rows p_email t' = other_rows p_email t).
  { subst t'. rewrite clean_as_filter. unfold other_rows.
    rewrite filter_filter. apply filter_ext. intros r.
    destruct (usuarios.email r =? p_email); simpl; auto using andb_false_r. }
  assert (Hact := active_rows_clean t). fold t' in Hact.
  destruct (kept_ids_cases t) as [[HA Hk]|(k & Hin & Hk & Hmax)].
  - rewrite HA in *. simpl in Hact. rewrite Hact. simpl.
    repeat split; auto; intros; lia.
  - rewrite Hk in Hact.
    rewrite (filter_unique_id k) in Hact;
      [|now apply NoDup_map_filter|exact Hin].
    rewrite Hact. simpl. repeat split; auto.
    + intros Hle. clear - Hin Hle.
      destruct (active_rows p_email t) as [|a [|b l]]; simpl in *; [tauto| |lia].
      destruct Hin as [->|[]]. reflexivity.
    + intros _. exists k. auto.
Qed.

Lemma clean_no_soft_deleted (t : list usuarios.row) :
  soft_deleted_rows p_email (clean_duplicate_usuarios p_email t) = [].
Proof.
  rewrite clean_as_filter. unfold soft_deleted_rows.
  rewrite filter_filter. apply filter_none. intros r _. unfold is_not_null.
  destruct (usuarios.email r =? p_email), (is_null (usuarios.deleted_at r));
    simpl; auto using andb_false_r.
Qed.

(** A table with nothing to clean for the email is left as it is. *)
Lemma clean_nothing_to_clean (t : list usuarios.row) :
  no_duplicates p_email t = true -> clean_duplicate_usuarios p_email t = t.
Proof.
  intros Hno. unfold no_duplicates in Hno.
  apply andb_true_iff in Hno as [Hall Hlen].
  rewrite forallb_forall in Hall. apply Nat.leb_le in Hlen.
  rewrite clean_as_filter. apply filter_all. intros r Hr.
  specialize (Hall r Hr).
  destruct (usuarios.email r =? p_email) eqn:Ee; [simpl in *|reflexivity].
  rewrite Hall. simpl.
  assert (HrA : In r (active_rows p_email t)).
  { apply filter_In. split; [exact Hr|]. unfold active_with_email.
    now rewrite Ee, Hall. }
  destruct (kept_ids_cases t) as [[HA _]|(k & Hin & Hk & _)].
  - rewrite HA in HrA. destruct HrA.
  - rewrite Hk. simpl. rewrite orb_false_r. apply String.eqb_eq. f_equal.
    apply (at_most_one (filter (fun r => usuarios.email r =? p_email) t));
      [exact Hlen| |]; apply filter_In.
    + split; [exact Hr|exact Ee].
    + apply filter_In in Hin as [Hkt Hka]. split; [exact Hkt|].
      unfold active_with_email in Hka. now apply andb_true_iff in Hka as [-> _].
Qed.

(** C7, as the code has it: [clean_duplicate_usuarios] is idempotent on
    every table; a call changes nothing on a table where the email has no
    soft-deleted row and at most one row; and a call that changes nothing
    found no soft-deleted row of the email, since it deletes every such
    row, also one that has no duplicate. *)
Theorem clean_duplicate_usuarios_idempotent (t : list usuarios.row) :
  clean_duplicate_usuarios p_email (clean_duplicate_usuarios p_email t)
  = clean_duplicate_usuarios p_email t /\
  (no_duplicates p_email t = true -> clean_duplicate_usuarios p_email t = t) /\
  (clean_duplicate_usuarios p_email t = t -> soft_deleted_rows p_email t = []).
Proof.
  split; [|split].
  - rewrite (clean_as_filter (clean_duplicate_usuarios p_email t)).
    apply filter_all. intros r Hr.
    destruct (usuarios.email r =? p_email) eqn:Ee; [simpl|reflexivity].
    assert (Hr' := Hr). rewrite clean_as_filter in Hr'.
    apply filter_In in Hr' as [Hrt HP]. rewrite Ee in HP. simpl in HP.
    apply andb_true_iff in HP as [Hnull Hkept]. rewrite Hnull. simpl.
    assert (HrA : In r (active_rows p_email (clean_duplicate_usuarios p_email t))).
    { apply filter_In. split; [exact Hr|]. unfold active_with_email.
      now rewrite Ee, Hnull. }
    destruct (kept_ids_cases (clean_duplicate_usuarios p_email t))
      as [[HA _]|(k' & Hin' & Hk' & _)].
    + rewrite HA in HrA. destruct HrA.
    + rewrite Hk'. simpl. rewrite orb_false_r.
      rewrite active_rows_clean in Hin'. apply filter_In in Hin' as [_ Hk'in].
      destruct (kept_ids_cases t) as [[_ Hk]|(k & _ & Hk & _)];
        rewrite Hk in Hkept, Hk'in; simpl in Hkept, Hk'in; [discriminate|].
      rewrite orb_false_r in Hkept, Hk'in.
      apply String.eqb_eq in Hkept, Hk'in. apply String.eqb_eq. congruence.
  - apply clean_nothing_to_clean.
  - intros Hfix. rewrite <- Hfix at 1. apply clean_no_soft_deleted.
Qed.

End Deduplication.

(** ** The synchronization procedure *)

Lemma no_match_no_violation users i c (l : list clientes.row) :
  (forall r, In r l -> clientes.id r <> c) ->
  violates_usuario_portal_fkey users i c l = false.
Proof.
  intros Hno. unfold violates_usuario_portal_fkey.
  destruct (existsb (fun r => clientes.id r =? c) l) eqn:E; [|reflexivity].
  apply existsb_exists in E as (r & Hr & Hid). apply String.eqb_eq in Hid.
  now destruct (Hno r Hr).
Qed.

Lemma listed_no_violation (users : list auth.users) (u : auth.users) c
    (l : list clientes.row) :
  In u users -> violates_usuario_portal_fkey users (auth.id u) c l = false.
Proof.
  intros Hu. unfold violates_usuario_portal_fkey.
  replace (existsb (fun v => auth.id v =? auth.id u) users) with true;
    [apply andb_false_r|].
  symmetry. apply existsb_exists. exists u. split; [exact Hu|apply String.eqb_refl].
Qed.

Lemma sync_body_ok f t i e n c d :
  existsb (fun x => usuarios.id x =? i) (tbl_usuarios d) = false ->
  on_insert_usuarios f = None -> on_update_clientes f = None ->
  violates_usuario_portal_fkey (auth_users d) i c (tbl_clientes d) = false ->
  sync_body f t i e n c d
  = inr ([("success", JBool true); ("user_id", JString i);
          ("message", JString "Usuário sincronizado com sucesso")],
         mk_database (auth_users d)
           (tbl_usuarios d ++ [usuarios.mk i n e "cliente" i i i t None])%list
           (map (fun r => if clientes.id r =? c
                          then clientes.mk (clientes.id r) (Some i) t (Some i)
                          else r) (tbl_clientes d))).
Proof.
  intros Hpk Hi Hu Hfk. unfold sync_body, insert_usuarios, update_clientes.
  cbn [usuarios.id]. now rewrite Hpk, Hi, Hu, Hfk.
Qed.

(** The three ends of the procedure: its block raised an error that the
    handler traps, or one that it does not trap, or it completed. *)
Lemma sync_returns f t i e n c d :
  (exists err,
     sync_body f t i e n c d = inl err /\ trapped_by_others err = true /\
     sync_user_after_auth_creation f t i e n c d
     = inr ([("success", JBool false);
             ("error", JString ("Erro ao sincronizar usuário: " ++ SQLERRM err))],
            d)) \/
  (exists err,
     sync_body f t i e n c d = inl err /\ trapped_by_others err = false /\
     sync_user_after_auth_creation f t i e n c d = inl err) \/
  (exists r,
     sync_body f t i e n c d = inr r /\
     sync_user_after_auth_creation f t i e n c d = inr r).
Proof.
  unfold sync_user_after_auth_creation, exception_when_others.
  destruct (sync_body f t i e n c d) as [err|r]; [|right; right; eauto].
  destruct (trapped_by_others err) eqn:E; [left|right; left]; eauto.
Qed.

Lemma sync_body_inv f t i e n c d r :
  sync_body f t i e n c d = inr r ->
  existsb (fun x => usuarios.id x =? i) (tbl_usuarios d) = false /\
  on_insert_usuarios f = None /\ on_update_clientes f = None /\
  violates_usuario_portal_fkey (auth_users d) i c (tbl_clientes d) = false.
Proof.
  unfold sync_body, insert_usuarios, update_clientes. cbn [usuarios.id].
  destruct (existsb _ (tbl_usuarios d)); [discriminate|].
  destruct (on_insert_usuarios f); [discriminate|].
  destruct (on_update_clientes f); [discriminate|].
  destruct (violates_usuario_portal_fkey _ _ _ _); [discriminate|]. auto.
Qed.

(** A reply with a truthy [success] comes from a block that completed. *)
Lemma sync_success_inv f t i e n c d j d' :
  sync_user_after_auth_creation f t i e n c d = inr (j, d') ->
  truthy (json_get "success" j) = true ->
  existsb (fun x => usuarios.id x =? i) (tbl_usuarios d) = false /\
  d' = mk_database (auth_users d)
         (tbl_usuarios d ++ [usuarios.mk i n e "cliente" i i i t None])%list
         (map (fun r => if clientes.id r =? c
                        then clientes.mk (clientes.id r) (Some i) t (Some i)
                        else r) (tbl_clientes d)).
Proof.
  intros H Ht.
  destruct (sync_returns f t i e n c d)
    as [(err & _ & _ & E)|[(err & _ & _ & E)|(r & Hb & E)]]; rewrite E in H.
  - injection H as <- <-. discriminate.
  - discriminate.
  - injection H as ->.
    destruct (sync_body_inv _ _ _ _ _ _ _ _ Hb) as (Hpk & Hi & Hu & Hfk).
    rewrite (sync_body_ok _ _ _ _ _ _ _ Hpk Hi Hu Hfk) in Hb.
    injection Hb as _ <-. auto.
Qed.

(** A reply without a truthy [success] comes from the handler: the tables
    are as before the call and the reply carries the message of the error
    the block raised. *)
Lemma sync_failure_inv f t i e n c d j d' :
  sync_user_after_auth_creation f t i e n c d = inr (j, d') ->
  truthy (json_get "success" j) = false ->
  d' = d /\
  exists err,
    sync_body f t i e n c d = inl err /\ trapped_by_others err = true /\
    j = [("success", JBool false);
         ("error", JString ("Erro ao sincronizar usuário: " ++ SQLERRM err))].
Proof.
  intros H Ht.
  destruct (sync_returns f t i e n c d)
    as [(err & Hb & Htrap & E)|[(err & _ & _ & E)|(r & Hb & E)]]; rewrite E in H.
  - injection H as <- <-. eauto.
  - discriminate.
  - destruct (sync_body_inv _ _ _ _ _ _ _ _ Hb) as (Hpk & Hi & Hu & Hfk).
    rewrite (sync_body_ok _ _ _ _ _ _ _ Hpk Hi Hu Hfk) in Hb.
    injection H as ->. injection Hb as <- _. discriminate.
Qed.


Lemma filter_inserted i (r : usuarios.row) (t : list usuarios.row) :
  usuarios.id r = i ->
  existsb (fun x => usuarios.id x =? i) t = false ->
  filter (fun x => usuarios.id x =? i) (t ++ [r]) = [r].
Proof.
  intros Hr Hpk. rewrite filter_app. simpl. rewrite Hr, String.eqb_refl.
  rewrite filter_none; [reflexivity|].
  intros x Hx. destruct (usuarios.id x =? i) eqn:E; [|reflexivity].
  rewrite <- Hpk. symmetry. apply existsb_exists. eauto.
Qed.

Lemma or_else_nonempty (s d : string) : d <> "" -> or_else s d <> "".
Proof.
  unfold or_else. destruct (String.eqb_spec s ""); auto.
Qed.

Lemma sync_failure_message_nonempty (r : option json) :
  sync_failure_message r <> "".
Proof.
  unfold sync_failure_message.
  destruct r as [j|]; [|discriminate].
  destruct (json_get "error" j) as [[[|]|s]|]; try discriminate.
  apply or_else_nonempty. discriminate.
Qed.

Lemma or_else_left (s d : string) : s <> "" -> or_else s d = s.
Proof.
  unfold or_else. destruct (String.eqb_spec s ""); tauto.
Qed.

(** ** Failures are values *)


(** ** Full success *)

Lemma updated_ids i t c (l : list clientes.row) :
  map clientes.id
    (map (fun r => if clientes.id r =? c
                   then clientes.mk (clientes.id r) (Some i) t (Some i)
                   else r) l)
  = map clientes.id l.
Proof.
  rewrite map_map. apply map_ext. intros r.
  now destruct (clientes.id r =? c).
Qed.

Lemma updated_rows i t c (l : list clientes.row) (x : clientes.row) :
  In x (map (fun r => if clientes.id r =? c
                      then clientes.mk (clientes.id r) (Some i) t (Some i)
                      else r) l) ->
  clientes.id x = c -> clientes.usuario_portal_id x = Some i.
Proof.
  intros Hx Hid. apply in_map_iff in Hx as (r & <- & _).
  destruct (String.eqb_spec (clientes.id r) c); [reflexivity|contradiction].
Qed.

(** C1: when [createPortalUser] returns a success, the [userId] it returns
    is the identifier the provider assigned in step 3; the identity with
    that identifier is in [auth.users]; the one row of [usuarios] with that
    [id] is the inserted Profile, whose tenant and audit columns hold the
    same value; and every row of [clientes] whose [id] is the customer
    reference has [usuario_portal_id] set to it, the rows of [clientes]
    being the same customers as before. *)
Theorem success_shares_identifier env email password nome cid d r s' :
  createPortalUser env email password nome cid (start d) = (returned r, s') ->
  success r = true ->
  exists X,
    In (mk_event (admin_createUser email password (metadata nome cid))
                 (resolved (Some (p_user (identity X email nome cid))) None))
       (trace s') /\
    userId r = Some X /\
    In (identity X email nome cid) (auth_users (db s')) /\
    filter (fun u => usuarios.id u =? X) (tbl_usuarios (db s'))
    = [profile X email nome (now env)] /\
    usuarios.tenant_id (profile X email nome (now env)) = X /\
    usuarios.created_by (profile X email nome (now env)) = X /\
    usuarios.updated_by (profile X email nome (now env)) = X /\
    map clientes.id (tbl_clientes (db s')) = map clientes.id (tbl_clientes d) /\
    (forall c, In c (tbl_clientes (db s')) -> clientes.id c = cid ->
               clientes.usuario_portal_id c = Some X).
Proof.
  intros H Hs. exec H.
  all: finish H; try discriminate Hs.
  all: destruct (sync_success_inv _ _ _ _ _ _ _ _ _ Esync Etruthy) as [Hpk ->].
  all: cbn [tbl_usuarios tbl_clientes auth_users set_auth_users set_usuarios] in *.
  all: eexists; split; [unfold identity, metadata; simpl; tauto|].
  all: split; [reflexivity|].
  all: split; [apply in_or_app; right; left; reflexivity|].
  all: split; [now apply filter_inserted|].
  all: repeat (split; [reflexivity|]).
  all: split; [apply updated_ids|intros c; apply updated_rows].
Qed.

(** ** The compensating delete *)

(** What [createPortalUser] returns does not depend on how the
    compensating [deleteUser] ends. *)
Lemma deleteUser_outcome_irrelevant env o email password nome cid s :
  fst (createPortalUser (set_on_deleteUser env o) email password nome cid s)
  = fst (createPortalUser env email password nome cid s).
Proof.
  run_client. reduce_goal.
  repeat (case_goal; reduce_goal); try reflexivity.
  all: destruct o; reflexivity.
Qed.

(** C3, as the code has it: when step 4 fails (the call resolves with an
    [error], or with a structure whose [success] is not truthy),
    [createPortalUser] issues [deleteUser] for the identity of step 3 as
    its last call and returns a failure whose text is
    "Erro ao sincronizar usuário: " followed by the underlying reason:
    the message of the [error] the call resolved with, or else the
    message of the SQL error that the block of the procedure raised and
    its handler reported; the response is the same whatever the outcome
    of that [deleteUser]; no row was inserted in [usuarios] and
    [clientes] is untouched; the identity is gone from [auth.users] when
    the [deleteUser] is carried out, and is left there otherwise. *)
Theorem sync_failure_is_compensated env email password nome cid d c s' X a :
  createPortalUser env email password nome cid (start d) = (c, s') ->
  In (mk_event (rpc_sync_user_after_auth_creation X email nome cid) a) (trace s') ->
  sync_reported_failure a = true ->
  calls s' = [rpc_clean_duplicate_usuarios email;
              select_usuarios_eq_email email;
              admin_createUser email password (metadata nome cid);
              rpc_sync_user_after_auth_creation X email nome cid;
              admin_deleteUser X] /\
  (exists cause,
      c = returned (mk_response false
                      (Some ("Erro ao sincronizar usuário: " ++ cause)) None None) /\
      match a with
      | resolved _ (Some syncError) => cause = ApiError.message syncError
      | _ =>
          exists err,
            sync_body (faults env) (now env) X email nome cid
              (mk_database (auth_users d ++ [identity X email nome cid])
                 (usuarios_after_clean env email d) (tbl_clientes d))
            = inl err /\
            trapped_by_others err = true /\ cause = SQLERRM err
      end) /\
  (forall o,
      fst (createPortalUser (set_on_deleteUser env o) email password nome cid
             (start d)) = c) /\
  tbl_usuarios (db s') = usuarios_after_clean env email d /\
  tbl_clientes (db s') = tbl_clientes d /\
  auth_users (db s')
  = match on_deleteUser env with
    | delivered =>
        delete_where (fun u => auth.id u =? X)
          (auth_users d ++ [identity X email nome cid])
    | _ => (auth_users d ++ [identity X email nome cid])%list
    end.
Proof.
  intros H Hin Hfail.
  enough (Hrest :
            calls s' = [rpc_clean_duplicate_usuarios email;
                        select_usuarios_eq_email email;
                        admin_createUser email password (metadata nome cid);
                        rpc_sync_user_after_auth_creation X email nome cid;
                        admin_deleteUser X] /\
            (exists cause,
                c = returned (mk_response false
                                (Some ("Erro ao sincronizar usuário: " ++ cause))
                                None None) /\
                match a with
                | resolved _ (Some syncError) => cause = ApiError.message syncError
                | _ =>
                    exists err,
                      sync_body (faults env) (now env) X email nome cid
                        (mk_database (auth_users d ++ [identity X email nome cid])
                           (usuarios_after_clean env email d) (tbl_clientes d))
                      = inl err /\
                      trapped_by_others err = true /\ cause = SQLERRM err
                end) /\
            tbl_usuarios (db s') = usuarios_after_clean env email d /\
            tbl_clientes (db s') = tbl_clientes d /\
            auth_users (db s')
            = match on_deleteUser env with
              | delivered =>
                  delete_where (fun u => auth.id u =? X)
                    (auth_users d ++ [identity X email nome cid])
              | _ => (auth_users d ++ [identity X email nome cid])%list
              end).
  { destruct Hrest as (? & ? & ? & ? & ?). repeat split; auto.
    intros o. now rewrite deleteUser_outcome_irrelevant, H. }
  exec H.
  all: finish H; pick Hin.
  all: injection Hin as <- <-.
  all: cbn [sync_reported_failure success_of] in Hfail;
    try (rewrite Etruthy in Hfail); try discriminate Hfail.
  all: try (apply sync_failure_inv in Esync as [-> (err & Hb & Htrap & ->)];
            [|exact Etruthy]).
  all: unfold usuarios_after_clean, identity, metadata in *; known_outcomes.
  all: cbn [tbl_usuarios tbl_clientes auth_users set_auth_users set_usuarios
              exn_message sync_failure_message json_get String.eqb Ascii.eqb
              Bool.eqb append or_else] in *.
  all: split; [reflexivity|].
  all: split; [|repeat split; reflexivity].
  all: eexists; split; [reflexivity|]; try reflexivity.
  all: eexists; repeat split; eassumption.
Qed.

(** ** Failures before the identity exists *)

(** C4, as the code has it: when the existence check of step 2 finds a
    non-deleted row of [usuarios] for the email, [createPortalUser]
    returns the duplicate-email failure and issues no call after the
    check: [auth.users] and [clientes] are untouched and no row is
    inserted in [usuarios], whose only change is the deduplication that
    step 1 carried out; the row found is the one non-deleted row of the
    email. *)
Theorem duplicate_email_stops_after_check env email password nome cid d c s' row err :
  createPortalUser env email password nome cid (start d) = (c, s') ->
  In (mk_event (select_usuarios_eq_email email) (resolved (Some (p_row row)) err))
     (trace s') ->
  c = returned (mk_response false (Some "Este email já está cadastrado no sistema")
                  None None) /\
  calls s' = [rpc_clean_duplicate_usuarios email; select_usuarios_eq_email email] /\
  auth_users (db s') = auth_users d /\
  tbl_clientes (db s') = tbl_clientes d /\
  tbl_usuarios (db s') = usuarios_after_clean env email d /\
  active_rows email (tbl_usuarios (db s')) = [row].
Proof.
  intros H Hin. exec H.
  all: finish H; pick Hin.
  all: injection Hin as <- <-.
  all: unfold usuarios_after_clean, active_rows; known_outcomes.
  all: cbn [tbl_usuarios tbl_clientes auth_users set_usuarios] in *.
  all: repeat split; try reflexivity; assumption.
Qed.

(** C6, as the code has it: when [createUser] resolves with an error,
    [createPortalUser] returns a failure whose text is the provider's
    message after the prefix "Erro na autenticação: ", and [createUser] is
    its last call: no [deleteUser], and the tables are as step 1 left
    them. *)
Theorem auth_failure_is_prefixed env email password nome cid d c s' data authError :
  createPortalUser env email password nome cid (start d) = (c, s') ->
  In (mk_event (admin_createUser email password (metadata nome cid))
               (resolved data (Some authError)))
     (trace s') ->
  c = returned (mk_response false
                  (Some ("Erro na autenticação: " ++ ApiError.message authError))
                  None None) /\
  calls s' = [rpc_clean_duplicate_usuarios email;
              select_usuarios_eq_email email;
              admin_createUser email password (metadata nome cid)] /\
  db s' = set_usuarios d (usuarios_after_clean env email d).
Proof.
  intros H Hin. exec H.
  all: finish H; pick Hin.
  all: injection Hin as <- <-.
  all: unfold usuarios_after_clean, metadata; known_outcomes.
  all: repeat split; try reflexivity.
  all: destruct d; reflexivity.
Qed.

(** ** Failure of the final verification *)

(** C9: when the re-fetch of step 6 fails (the call resolves with an error
    or without a row, or its promise rejects), [createPortalUser] returns
    a failure and issues no [deleteUser]: the identity of step 3 is still
    in [auth.users], the inserted Profile is still in [usuarios], and
    [clientes] keeps the update of the synchronization procedure. *)
Theorem verification_failure_is_not_compensated env email password nome cid d c s' X a :
  createPortalUser env email password nome cid (start d) = (c, s') ->
  In (mk_event (select_usuarios_eq_id X) a) (trace s') ->
  verification_failed a = true ->
  c = returned
        (mk_response false
           (Some match a with
                 | promise_rejected x =>
                     or_else (exn_message x) "Erro interno do servidor"
                 | _ => "Usuário criado mas não encontrado na verificação"
                 end) None None) /\
  (forall i, ~ In (admin_deleteUser i) (calls s')) /\
  In (identity X email nome cid) (auth_users (db s')) /\
  In (profile X email nome (now env)) (tbl_usuarios (db s')) /\
  map clientes.id (tbl_clientes (db s')) = map clientes.id (tbl_clientes d) /\
  (forall r, In r (tbl_clientes (db s')) -> clientes.id r = cid ->
             clientes.usuario_portal_id r = Some X).
Proof.
  intros H Hin Hfail. exec H.
  all: finish H; pick Hin.
  all: injection Hin as <- <-; try discriminate Hfail.
  all: destruct (sync_success_inv _ _ _ _ _ _ _ _ _ Esync Etruthy) as [Hpk ->].
  all: cbn [tbl_usuarios tbl_clientes auth_users set_auth_users set_usuarios] in *.
  all: split; [reflexivity|].
  all: split; [simpl; intros i Hi; intuition discriminate|].
  all: split; [apply in_or_app; right; left; reflexivity|].
  all: split; [apply in_or_app; right; left; reflexivity|].
  all: split; [apply updated_ids|intros ?; apply updated_rows].
Qed.

(** ** Synchronization without a customer row *)

Lemma update_without_match i t c (l : list clientes.row) :
  (forall r, In r l -> clientes.id r <> c) ->
  map (fun r => if clientes.id r =? c
                then clientes.mk (clientes.id r) (Some i) t (Some i)
                else r) l = l.
Proof.
  intros Hno. rewrite <- (map_id l) at 2. apply map_ext_in. intros r Hr.
  destruct (String.eqb_spec (clientes.id r) c) as [E|_]; [|reflexivity].
  now destruct (Hno r Hr).
Qed.

(** C10: [sync_user_after_auth_creation] returns [{success: true}] when its
    insert is accepted although no row of [clientes] has the customer
    reference as [id]: the [UPDATE] changes no row; and a
    [createPortalUser] that returns a success for such a reference leaves
    [clientes] as it was, so no row of it is made to reference the new
    identifier. *)
Theorem sync_succeeds_without_customer :
  (forall f t i e n c d,
      existsb (fun x => usuarios.id x =? i) (tbl_usuarios d) = false ->
      on_insert_usuarios f = None -> on_update_clientes f = None ->
      (forall r, In r (tbl_clientes d) -> clientes.id r <> c) ->
      exists d',
        sync_user_after_auth_creation f t i e n c d
        = inr ([("success", JBool true); ("user_id", JString i);
                ("message", JString "Usuário sincronizado com sucesso")], d') /\
        tbl_clientes d' = tbl_clientes d /\
        tbl_usuarios d' = (tbl_usuarios d ++ [profile i e n t])%list) /\
  (forall env email password nome cid d r s',
      createPortalUser env email password nome cid (start d) = (returned r, s') ->
      success r = true ->
      (forall x, In x (tbl_clientes d) -> clientes.id x <> cid) ->
      tbl_clientes (db s') = tbl_clientes d).
Proof.
  split.
  - intros f t i e n c d Hpk Hi Hu Hno.
    unfold sync_user_after_auth_creation, exception_when_others.
    rewrite (sync_body_ok _ _ _ _ _ _ _ Hpk Hi Hu
               (no_match_no_violation _ _ _ _ Hno)).
    eexists. split; [reflexivity|]. cbn [tbl_clientes tbl_usuarios].
    split; [now apply update_without_match|reflexivity].
  - intros env email password nome cid d r s' H Hs Hno. exec H.
    all: finish H; try discriminate Hs.
    all: destruct (sync_success_inv _ _ _ _ _ _ _ _ _ Esync Etruthy) as [Hpk ->].
    all: cbn [tbl_usuarios tbl_clientes auth_users set_auth_users set_usuarios] in *.
    all: now apply update_without_match.
Qed.

(** ** The diagnostic lookup *)


(** ** The properties on concrete runs *)

Lemma success_shares_identifier_witness :
  run_success = (returned response_ok, snd run_success) /\
  success response_ok = true /\
  exists X,
    In (mk_event (admin_createUser "a@b.com" "secret1" (metadata "Ana" "c-1"))
                 (resolved (Some (p_user (identity X "a@b.com" "Ana" "c-1"))) None))
       (trace (snd run_success)) /\
    userId response_ok = Some X /\
    In (identity X "a@b.com" "Ana" "c-1") (auth_users (db (snd run_success))) /\
    filter (fun u => usuarios.id u =? X) (tbl_usuarios (db (snd run_success)))
    = [profile X "a@b.com" "Ana" 7%Z] /\
    usuarios.tenant_id (profile X "a@b.com" "Ana" 7%Z) = X /\
    usuarios.created_by (profile X "a@b.com" "Ana" 7%Z) = X /\
    usuarios.updated_by (profile X "a@b.com" "Ana" 7%Z) = X /\
    map clientes.id (tbl_clientes (db (snd run_success)))
    = map clientes.id (tbl_clientes db0) /\
    (forall c, In c (tbl_clientes (db (snd run_success))) -> clientes.id c = "c-1" ->
               clientes.usuario_portal_id c = Some "X").
Proof.
  split; [reflexivity|]. split; [reflexivity|].
  destruct (success_shares_identifier (all_delivered "X" 7%Z) "a@b.com" "secret1"
              "Ana" "c-1" db0 response_ok (snd run_success) eq_refl eq_refl)
    as (X & H1 & H2 & H3).
  injection H2 as <-. exists "X". auto.
Defined.

Lemma clean_duplicate_usuarios_keeps_most_recent_witness :
  NoDup (map usuarios.id tbl_duplicates) /\
  soft_deleted_rows "a@b.com" (clean_duplicate_usuarios "a@b.com" tbl_duplicates) = [] /\
  active_rows "a@b.com" (clean_duplicate_usuarios "a@b.com" tbl_duplicates) = [last_ana] /\
  other_rows "a@b.com" (clean_duplicate_usuarios "a@b.com" tbl_duplicates)
  = other_rows "a@b.com" tbl_duplicates.
Proof.
  assert (Hnd : NoDup (map usuarios.id tbl_duplicates)).
  { repeat constructor; simpl; intuition discriminate. }
  split; [exact Hnd|].
  destruct (clean_duplicate_usuarios_keeps_most_recent "a@b.com" tbl_duplicates Hnd)
    as (H1 & _ & _ & _ & H5).
  split; [exact H1|]. split; [reflexivity|exact H5].
Defined.

Lemma clean_duplicate_usuarios_idempotent_witness :
  no_duplicates "a@b.com" [bia; last_ana] = true /\
  clean_duplicate_usuarios "a@b.com" [bia; last_ana] = [bia; last_ana] /\
  soft_deleted_rows "a@b.com" [bia; last_ana] = [].
Proof.
  destruct (clean_duplicate_usuarios_idempotent "a@b.com" [bia; last_ana])
    as (_ & Hnoop & Hfound).
  split; [reflexivity|].
  split; [exact (Hnoop eq_refl)|exact (Hfound (Hnoop eq_refl))].
Defined.

Lemma sync_failure_is_compensated_witness :
  (In (mk_event (rpc_sync_user_after_auth_creation "X" "a@b.com" "Ana" "c-1")
                (resolved None (Some permission_denied)))
      (trace (snd run_sync_rejected)) /\
   sync_reported_failure (resolved None (Some permission_denied)) = true /\
   In (admin_deleteUser "X") (calls (snd run_sync_rejected)) /\
   fst run_sync_rejected
   = returned (mk_response false
                 (Some ("Erro ao sincronizar usuário: "
                          ++ ApiError.message permission_denied))
                 None None) /\
   fst run_uncompensated = fst run_sync_rejected /\
   tbl_usuarios (db (snd run_sync_rejected)) = [] /\
   auth_users (db (snd run_sync_rejected)) = []) /\
  (In (mk_event (rpc_sync_user_after_auth_creation "X" "a@b.com" "Ana" "c-1")
                (resolved (Some (p_json pkey_failure)) None))
      (trace (snd run_id_taken)) /\
   sync_reported_failure (resolved (Some (p_json pkey_failure)) None) = true /\
   In (admin_deleteUser "X") (calls (snd run_id_taken)) /\
   fst run_id_taken
   = returned (mk_response false
                 (Some ("Erro ao sincronizar usuário: "
                          ++ SQLERRM (unique_violation "usuarios_pkey")))
                 None None) /\
   tbl_usuarios (db (snd run_id_taken)) = [bia_as_X] /\
   auth_users (db (snd run_id_taken)) = []).
Proof.
  split.
  - assert (Hin : In (mk_event (rpc_sync_user_after_auth_creation "X" "a@b.com" "Ana" "c-1")
                               (resolved None (Some permission_denied)))
                     (trace (snd run_sync_rejected))).
    { simpl. tauto. }
    split; [exact Hin|]. split; [reflexivity|].
    destruct (sync_failure_is_compensated env_sync_rejected "a@b.com" "secret1" "Ana"
                "c-1" db0 (fst run_sync_rejected) (snd run_sync_rejected) "X"
                (resolved None (Some permission_denied)) eq_refl Hin eq_refl)
      as (H1 & (cause & H2 & Hcause) & H3 & H4 & _ & H6).
    split; [rewrite H1; simpl; tauto|].
    split; [rewrite H2, Hcause; reflexivity|].
    split; [exact (H3 _)|]. split; [exact H4|exact H6].
  - assert (Hin : In (mk_event (rpc_sync_user_after_auth_creation "X" "a@b.com" "Ana" "c-1")
                               (resolved (Some (p_json pkey_failure)) None))
                     (trace (snd run_id_taken))).
    { simpl. tauto. }
    split; [exact Hin|]. split; [reflexivity|].
    destruct (sync_failure_is_compensated (all_delivered "X" 7%Z) "a@b.com" "secret1"
                "Ana" "c-1" db_id_taken (fst run_id_taken) (snd run_id_taken) "X"
                (resolved (Some (p_json pkey_failure)) None) eq_refl Hin eq_refl)
      as (H1 & (cause & H2 & err & Hb & _ & Hcause) & _ & H4 & _ & H6).
    split; [rewrite H1; simpl; tauto|].
    split; [|split; [exact H4|exact H6]].
    rewrite H2, Hcause. vm_compute in Hb. injection Hb as <-. reflexivity.
Defined.

Lemma duplicate_email_stops_after_check_witness :
  In (mk_event (select_usuarios_eq_email "a@b.com")
               (resolved (Some (p_row first_ana)) None))
     (trace (snd run_leftover)) /\
  fst run_leftover
  = returned (mk_response false (Some "Este email já está cadastrado no sistema")
                None None) /\
  calls (snd run_leftover)
  = [rpc_clean_duplicate_usuarios "a@b.com"; select_usuarios_eq_email "a@b.com"] /\
  auth_users (db (snd run_leftover)) = auth_users db_leftover /\
  tbl_clientes (db (snd run_leftover)) = tbl_clientes db_leftover /\
  active_rows "a@b.com" (tbl_usuarios (db (snd run_leftover))) = [first_ana].
Proof.
  assert (Hin : In (mk_event (select_usuarios_eq_email "a@b.com")
                             (resolved (Some (p_row first_ana)) None))
                   (trace (snd run_leftover))).
  { simpl. tauto. }
  split; [exact Hin|].
  destruct (duplicate_email_stops_after_check (all_delivered "X" 7%Z) "a@b.com"
              "secret1" "Ana" "c-1" db_leftover (fst run_leftover)
              (snd run_leftover) first_ana None eq_refl Hin)
    as (H1 & H2 & H3 & H4 & _ & H6).
  auto.
Defined.


Lemma auth_failure_is_prefixed_witness :
  In (mk_event (admin_createUser "a@b.com" "secret1" (metadata "Ana" "c-1"))
               (resolved None (Some already_registered)))
     (trace (snd run_auth_rejected)) /\
  fst run_auth_rejected
  = returned (mk_response false
                (Some ("Erro na autenticação: " ++ ApiError.message already_registered))
                None None) /\
  calls (snd run_auth_rejected)
  = [rpc_clean_duplicate_usuarios "a@b.com";
     select_usuarios_eq_email "a@b.com";
     admin_createUser "a@b.com" "secret1" (metadata "Ana" "c-1")] /\
  db (snd run_auth_rejected)
  = set_usuarios db0 (usuarios_after_clean env_auth_rejected "a@b.com" db0).
Proof.
  assert (Hin : In (mk_event (admin_createUser "a@b.com" "secret1" (metadata "Ana" "c-1"))
                             (resolved None (Some already_registered)))
                   (trace (snd run_auth_rejected))).
  { simpl. tauto. }
  split; [exact Hin|].
  exact (auth_failure_is_prefixed env_auth_rejected "a@b.com" "secret1" "Ana" "c-1"
           db0 (fst run_auth_rejected) (snd run_auth_rejected) None
           already_registered eq_refl Hin).
Defined.


Lemma verification_failure_is_not_compensated_witness :
  In (mk_event (select_usuarios_eq_id "X") (resolved None (Some timed_out)))
     (trace (snd run_verify_rejected)) /\
  verification_failed (resolved None (Some timed_out)) = true /\
  fst run_verify_rejected
  = returned (mk_response false
                (Some "Usuário criado mas não encontrado na verificação") None None) /\
  (forall i, ~ In (admin_deleteUser i) (calls (snd run_verify_rejected))) /\
  In (identity "X" "a@b.com" "Ana" "c-1") (auth_users (db (snd run_verify_rejected))) /\
  In (profile "X" "a@b.com" "Ana" 7%Z) (tbl_usuarios (db (snd run_verify_rejected))) /\
  (forall r, In r (tbl_clientes (db (snd run_verify_rejected))) ->
             clientes.id r = "c-1" -> clientes.usuario_portal_id r = Some "X").
Proof.
  assert (Hin : In (mk_event (select_usuarios_eq_id "X")
                             (resolved None (Some timed_out)))
                   (trace (snd run_verify_rejected))).
  { simpl. tauto. }
  split; [exact Hin|]. split; [reflexivity|].
  destruct (verification_failure_is_not_compensated env_verify_rejected "a@b.com"
              "secret1" "Ana" "c-1" db0 (fst run_verify_rejected)
              (snd run_verify_rejected) "X" (resolved None (Some timed_out))
              eq_refl Hin eq_refl)
    as (H1 & H2 & H3 & H4 & _ & H6).
  auto.
Defined.

Lemma sync_succeeds_without_customer_witness :
  (exists d',
      sync_user_after_auth_creation no_faults 7%Z "X" "a@b.com" "Ana" "c-1"
        db_no_customer
      = inr ([("success", JBool true); ("user_id", JString "X");
              ("message", JString "Usuário sincronizado com sucesso")], d') /\
      tbl_clientes d' = [] /\ tbl_usuarios d' = [ana]) /\
  run_no_customer = (returned response_ok, snd run_no_customer) /\
  tbl_clientes (db (snd run_no_customer)) = [].
Proof.
  destruct sync_succeeds_without_customer as [Hsql Hclient].
  split.
  - apply (Hsql no_faults 7%Z "X" "a@b.com" "Ana" "c-1" db_no_customer);
      try reflexivity.
    intros r [].
  - split; [reflexivity|].
    apply (Hclient (all_delivered "X" 7%Z) "a@b.com" "secret1" "Ana" "c-1"
             db_no_customer response_ok (snd run_no_customer));
      try reflexivity.
    intros x [].
Defined.

(** ** Where the code departs from the claims *)

(** C3 fails as stated: the synchronization call is refused and the
    compensating [deleteUser] is refused too; the call still returns the
    synchronization failure, and the identity of step 3 stays in
    [auth.users] for that email. *)
Lemma residual_identity_after_refused_delete :
  In (mk_event (rpc_sync_user_after_auth_creation "X" "a@b.com" "Ana" "c-1")
               (resolved None (Some permission_denied)))
     (trace (snd run_uncompensated)) /\
  In (admin_deleteUser "X") (calls (snd run_uncompensated)) /\
  fst run_uncompensated
  = returned (mk_response false
                (Some "Erro ao sincronizar usuário: permission denied for function sync_user_after_auth_creation")
                None None) /\
  exists u, In u (auth_users (db (snd run_uncompensated))) /\
            auth.email u = "a@b.com" /\ auth.id u = "X".
Proof.
  split; [simpl; tauto|]. split; [simpl; tauto|]. split; [reflexivity|].
  exists (identity "X" "a@b.com" "Ana" "c-1"). simpl. tauto.
Qed.

(** C4 fails as stated: the email has a non-deleted row at the existence
    check and the call returns the duplicate-email failure, yet it deleted
    a row of [usuarios] in step 1. *)
Lemma duplicate_email_call_deletes_a_row :
  active_rows "a@b.com" (tbl_usuarios db_leftover) = [first_ana] /\
  fst run_leftover
  = returned (mk_response false (Some "Este email já está cadastrado no sistema")
                None None) /\
  In old_ana (tbl_usuarios db_leftover) /\
  ~ In old_ana (tbl_usuarios (db (snd run_leftover))) /\
  tbl_usuarios (db (snd run_leftover)) <> tbl_usuarios db_leftover.
Proof.
  split; [reflexivity|]. split; [reflexivity|]. split; [simpl; tauto|].
  split; [simpl; intuition discriminate|]. simpl. discriminate.
Qed.

(** C6 fails as stated: the provider's message is "User already
    registered" and the text returned is not that message. *)
Lemma auth_failure_text_is_not_verbatim :
  In (mk_event (admin_createUser "a@b.com" "secret1" (metadata "Ana" "c-1"))
               (resolved None (Some already_registered)))
     (trace (snd run_auth_rejected)) /\
  ApiError.message already_registered = "User already registered" /\
  fst run_auth_rejected
  = returned (mk_response false
                (Some "Erro na autenticação: User already registered") None None) /\
  fst run_auth_rejected
  <> returned (mk_response false (Some "User already registered") None None).
Proof.
  split; [simpl; tauto|]. split; [reflexivity|]. split; [reflexivity|].
  simpl. discriminate.
Qed.


(** C7 fails as stated: the email has one row, so no duplicates, and the
    call deletes that row, which is soft-deleted. *)
Lemma lone_soft_deleted_row_is_deleted :
  at_most_one_row "a@b.com" [old_ana; bia] = true /\
  rows_with_email "a@b.com" [old_ana; bia] = [old_ana] /\
  clean_duplicate_usuarios "a@b.com" [old_ana; bia] = [bia] /\
  clean_duplicate_usuarios "a@b.com" [old_ana; bia] <> [old_ana; bia].
Proof.
  split; [reflexivity|]. split; [reflexivity|]. split; [reflexivity|].
  simpl. discriminate.
Qed.


(** * Further properties

    ** The stored procedures *)

Lemma clean_incl e (t : list usuarios.row) r :
  In r (clean_duplicate_usuarios e t) -> In r t.
Proof.
  rewrite clean_as_filter. intros H. now apply filter_In in H.
Qed.

Lemma clean_other_rows e (t : list usuarios.row) :
  other_rows e (clean_duplicate_usuarios e t) = other_rows e t.
Proof.
  rewrite clean_as_filter. unfold other_rows. rewrite filter_filter.
  apply filter_ext. intros r.
  destruct (usuarios.email r =? e); simpl; auto using andb_false_r.
Qed.

Lemma clean_NoDup e (t : list usuarios.row) :
  NoDup (map usuarios.id t) -> NoDup (map usuarios.id (clean_duplicate_usuarios e t)).
Proof.
  rewrite clean_as_filter. apply NoDup_map_filter.
Qed.

(** X1: [clean_duplicate_usuarios] only deletes: every row it leaves was
    in the table, the rows of every other email are all left, in their
    order, and identifiers that were unique stay unique. *)
Theorem clean_duplicate_usuarios_only_deletes e (t : list usuarios.row) :
  (forall r, In r (clean_duplicate_usuarios e t) -> In r t) /\
  other_rows e (clean_duplicate_usuarios e t) = other_rows e t /\
  (NoDup (map usuarios.id t) ->
   NoDup (map usuarios.id (clean_duplicate_usuarios e t))).
Proof.
  split; [intros r; apply clean_incl|].
  split; [apply clean_other_rows|apply clean_NoDup].
Qed.

Lemma clean_rows_with_email e (t : list usuarios.row) :
  rows_with_email e (clean_duplicate_usuarios e t)
  = filter (fun r => existsb (String.eqb (usuarios.id r)) (kept_ids e t))
      (active_rows e t).
Proof.
  rewrite clean_as_filter. unfold rows_with_email, active_rows.
  rewrite !filter_filter. apply filter_ext. intros r. unfold active_with_email.
  destruct (usuarios.email r =? e), (is_null (usuarios.deleted_at r)),
    (existsb (String.eqb (usuarios.id r)) (kept_ids e t)); reflexivity.
Qed.

Lemma clean_keeps_an_active_row e (t : list usuarios.row) :
  active_rows e t <> [] -> active_rows e (clean_duplicate_usuarios e t) <> [].
Proof.
  intros Hne. rewrite active_rows_clean.
  destruct (kept_ids_cases e t) as [[HA _]|(k & Hin & Hk & _)]; [contradiction|].
  rewrite Hk. intros Hnil.
  assert (Hk' : In k (filter (fun r => existsb (String.eqb (usuarios.id r))
                                         [usuarios.id k]) (active_rows e t))).
  { apply filter_In. split; [exact Hin|]. simpl. now rewrite String.eqb_refl. }
  rewrite Hnil in Hk'. destruct Hk'.
Qed.

(** X2: an email whose rows are all soft-deleted loses every row, and an
    email with a non-deleted row keeps a non-deleted row: the procedure
    never removes the last non-deleted row of an email, whether or not
    identifiers are unique; and every row it leaves for the email is
    non-deleted. *)
Theorem clean_duplicate_usuarios_never_empties_an_active_email e (t : list usuarios.row) :
  (active_rows e t = [] -> rows_with_email e (clean_duplicate_usuarios e t) = []) /\
  (active_rows e t <> [] -> active_rows e (clean_duplicate_usuarios e t) <> []) /\
  rows_with_email e (clean_duplicate_usuarios e t)
  = active_rows e (clean_duplicate_usuarios e t).
Proof.
  split; [|split].
  - intros HA. rewrite clean_rows_with_email, HA. reflexivity.
  - apply clean_keeps_an_active_row.
  - now rewrite clean_rows_with_email, active_rows_clean.
Qed.

Lemma active_rows_other_clean e1 e2 (t : list usuarios.row) :
  e1 <> e2 ->
  active_rows e1 (clean_duplicate_usuarios e2 t) = active_rows e1 t.
Proof.
  intros Hne. rewrite clean_as_filter. unfold active_rows.
  rewrite filter_filter. apply filter_ext. intros r. unfold active_with_email.
  destruct (String.eqb_spec (usuarios.email r) e1) as [E1|_]; [|apply andb_false_r].
  destruct (String.eqb_spec (usuarios.email r) e2) as [E2|_]; [congruence|].
  reflexivity.
Qed.

(** X3: deduplicating two different emails, in either order, gives the
    same table. *)
Theorem clean_duplicate_usuarios_commutes e1 e2 (t : list usuarios.row) :
  e1 <> e2 ->
  clean_duplicate_usuarios e1 (clean_duplicate_usuarios e2 t)
  = clean_duplicate_usuarios e2 (clean_duplicate_usuarios e1 t).
Proof.
  intros Hne.
  rewrite (clean_as_filter e1 (clean_duplicate_usuarios e2 t)).
  rewrite (clean_as_filter e2 (clean_duplicate_usuarios e1 t)).
  unfold kept_ids.
  rewrite (active_rows_other_clean e1 e2), (active_rows_other_clean e2 e1)
    by congruence.
  rewrite (clean_as_filter e1 t), (clean_as_filter e2 t). unfold kept_ids.
  rewrite !filter_filter. apply filter_ext. intros r. apply andb_comm.
Qed.

Lemma clean_duplicate_usuarios_commutes_witness :
  "a@b.com" <> "b@b.com" /\
  clean_duplicate_usuarios "a@b.com" (clean_duplicate_usuarios "b@b.com" tbl_duplicates)
  = clean_duplicate_usuarios "b@b.com" (clean_duplicate_usuarios "a@b.com" tbl_duplicates).
Proof.
  assert (H : "a@b.com" <> "b@b.com") by discriminate.
  split; [exact H|].
  exact (clean_duplicate_usuarios_commutes "a@b.com" "b@b.com" tbl_duplicates H).
Defined.



Lemma filter_app_last {A} (f : A -> bool) (l : list A) (x : A) :
  f x = true -> filter f (l ++ [x]) = (filter f l ++ [x])%list.
Proof.
  intros Hx. rewrite filter_app. simpl. now rewrite Hx.
Qed.

(** X5: [sync_user_after_auth_creation] does not look at the rows the
    email already has. When the identifier is new to [usuarios] and the
    table declarations accept the two statements: if the update keeps
    the foreign key of [clientes.usuario_portal_id] (the identifier is in
    [auth.users], or no row of [clientes] has the customer reference),
    the procedure succeeds and the email has one more non-deleted row
    than before, so an email that had a non-deleted row has two; if the
    update would reference an identifier that [auth.users] does not hold,
    the procedure returns [{success: false}] with the message of the
    foreign-key violation and changes no table. *)
Theorem sync_user_after_auth_creation_ignores_existing_email f t i e n c d :
  existsb (fun x => usuarios.id x =? i) (tbl_usuarios d) = false ->
  on_insert_usuarios f = None -> on_update_clientes f = None ->
  (violates_usuario_portal_fkey (auth_users d) i c (tbl_clientes d) = false ->
   exists j d',
     sync_user_after_auth_creation f t i e n c d = inr (j, d') /\
     json_get "success" j = Some (JBool true) /\
     active_rows e (tbl_usuarios d')
     = (active_rows e (tbl_usuarios d) ++ [profile i e n t])%list /\
     length (active_rows e (tbl_usuarios d'))
     = S (length (active_rows e (tbl_usuarios d)))) /\
  (violates_usuario_portal_fkey (auth_users d) i c (tbl_clientes d) = true ->
   sync_user_after_auth_creation f t i e n c d
   = inr ([("success", JBool false);
           ("error",
            JString ("Erro ao sincronizar usuário: "
                       ++ SQLERRM (foreign_key_violation
                                     "clientes_usuario_portal_id_fkey")))],
          d)).
Proof.
  intros Hpk Hi Hu. split.
  - intros Hfk.
    unfold sync_user_after_auth_creation, exception_when_others.
    rewrite (sync_body_ok _ _ _ _ _ _ _ Hpk Hi Hu Hfk).
    eexists _, _. split; [reflexivity|]. split; [reflexivity|].
    cbn [tbl_usuarios]. unfold active_rows.
    assert (Hact : active_with_email e (profile i e n t) = true).
    { unfold active_with_email, profile. simpl. now rewrite String.eqb_refl. }
    split.
    + now apply filter_app_last.
    + unfold profile in Hact. rewrite filter_app_last by exact Hact.
      rewrite length_app. simpl. lia.
  - intros Hfk.
    unfold sync_user_after_auth_creation, exception_when_others, sync_body,
      insert_usuarios, update_clientes.
    cbn [usuarios.id]. now rewrite Hpk, Hi, Hu, Hfk.
Qed.

Lemma sync_user_after_auth_creation_ignores_existing_email_witness :
  existsb (fun x => usuarios.id x =? "Y") (tbl_usuarios db_second_identity) = false /\
  violates_usuario_portal_fkey (auth_users db_second_identity) "Y" "c-1"
    (tbl_clientes db_second_identity) = false /\
  (exists j d',
      sync_user_after_auth_creation no_faults 8%Z "Y" "a@b.com" "Ana" "c-1"
        db_second_identity
      = inr (j, d') /\
      json_get "success" j = Some (JBool true) /\
      active_rows "a@b.com" (tbl_usuarios d')
      = [ana; profile "Y" "a@b.com" "Ana" 8%Z] /\
      length (active_rows "a@b.com" (tbl_usuarios d')) = 2) /\
  violates_usuario_portal_fkey (auth_users db_synced) "Y" "c-1" (tbl_clientes db_synced)
  = true /\
  sync_user_after_auth_creation no_faults 8%Z "Y" "a@b.com" "Ana" "c-1" db_synced
  = inr ([("success", JBool false);
          ("error",
           JString ("Erro ao sincronizar usuário: "
                      ++ SQLERRM (foreign_key_violation
                                    "clientes_usuario_portal_id_fkey")))],
         db_synced).
Proof.
  split; [reflexivity|]. split; [reflexivity|]. split.
  - exact (proj1 (sync_user_after_auth_creation_ignores_existing_email no_faults 8%Z
                    "Y" "a@b.com" "Ana" "c-1" db_second_identity eq_refl eq_refl
                    eq_refl)
             eq_refl).
  - split; [reflexivity|].
    exact (proj2 (sync_user_after_auth_creation_ignores_existing_email no_faults 8%Z
                    "Y" "a@b.com" "Ana" "c-1" db_synced eq_refl eq_refl eq_refl)
             eq_refl).
Defined.

Ltac settle_sync :=
  try match goal with
      | E : sync_user_after_auth_creation _ _ _ _ _ _ _ = inr (_, _),
        T : truthy _ = true |- _ =>
          let Hpk := fresh "Hpk" in
          destruct (sync_success_inv _ _ _ _ _ _ _ _ _ E T) as [Hpk ->]
      | E : sync_user_after_auth_creation _ _ _ _ _ _ _ = inr (_, _),
        T : truthy _ = false |- _ =>
          apply sync_failure_inv in E as [-> _]; [|exact T]
      end;
  cbn [tbl_usuarios tbl_clientes auth_users set_auth_users set_usuarios] in *.

(** ** Where a run of [createPortalUser] can stop *)

(** X6: the calls of a run are a beginning of one fixed sequence: the
    deduplication, the existence check, [createUser], the
    synchronization, and then either the compensating [deleteUser] or the
    verification, both for the identifier the synchronization was called
    with. So no run issues [deleteUser] without a synchronization call
    before it, or for another identifier, and no run issues a call
    twice. *)
Theorem createPortalUser_call_sequence env email password nome cid d c s' :
  createPortalUser env email password nome cid (start d) = (c, s') ->
  let first3 := [rpc_clean_duplicate_usuarios email;
                 select_usuarios_eq_email email;
                 admin_createUser email password (metadata nome cid)] in
  calls s' = firstn 1 first3 \/
  calls s' = firstn 2 first3 \/
  calls s' = first3 \/
  exists X,
    provider_id env = Some X /\
    (calls s' = (first3 ++ [rpc_sync_user_after_auth_creation X email nome cid])%list \/
     calls s' = (first3 ++ [rpc_sync_user_after_auth_creation X email nome cid;
                            admin_deleteUser X])%list \/
     calls s' = (first3 ++ [rpc_sync_user_after_auth_creation X email nome cid;
                            select_usuarios_eq_id X])%list).
Proof.
  intros H. exec H.
  all: finish H; unfold metadata; simpl.
  all: try (left; reflexivity).
  all: try (right; left; reflexivity).
  all: try (right; right; left; reflexivity).
  all: right; right; right; eexists; split; [reflexivity|].
  all: try (left; reflexivity).
  all: try (right; left; reflexivity).
  all: right; right; reflexivity.
Qed.

Lemma other_rows_inserted e i n t (l : list usuarios.row) :
  other_rows e (l ++ [usuarios.mk i n e "cliente" i i i t None]) = other_rows e l.
Proof.
  unfold other_rows. rewrite filter_app. simpl. rewrite String.eqb_refl. simpl.
  apply app_nil_r.
Qed.

Lemma updated_other i t c (l : list clientes.row) (x : clientes.row) :
  In x l -> clientes.id x <> c ->
  In x (map (fun r => if clientes.id r =? c
                      then clientes.mk (clientes.id r) (Some i) t (Some i)
                      else r) l).
Proof.
  intros Hx Hid. apply in_map_iff. exists x. split; [|exact Hx].
  destruct (String.eqb_spec (clientes.id x) c); [contradiction|reflexivity].
Qed.

Lemma delete_where_keeps (i : uuid) (l : list auth.users) (u : auth.users) :
  In u l -> auth.id u <> i -> In u (delete_where (fun v => auth.id v =? i) l).
Proof.
  intros Hu Hid. apply filter_In. split; [exact Hu|].
  destruct (String.eqb_spec (auth.id u) i); [contradiction|reflexivity].
Qed.

(** X7: whatever the outcome of a run, it leaves alone what belongs to
    others: the rows of [usuarios] of every other email are as before,
    [clientes] holds the same customers and the rows of every other
    customer are unchanged, and every identity that was in [auth.users]
    under another identifier than the one the provider assigns is still
    there. *)
Theorem createPortalUser_frame env email password nome cid d c s' :
  createPortalUser env email password nome cid (start d) = (c, s') ->
  other_rows email (tbl_usuarios (db s')) = other_rows email (tbl_usuarios d) /\
  map clientes.id (tbl_clientes (db s')) = map clientes.id (tbl_clientes d) /\
  (forall x, In x (tbl_clientes d) -> clientes.id x <> cid ->
             In x (tbl_clientes (db s'))) /\
  (forall u, In u (auth_users d) -> provider_id env <> Some (auth.id u) ->
             In u (auth_users (db s'))).
Proof.
  intros H. exec H.
  all: finish H; settle_sync.
  all: rewrite ?other_rows_inserted, ?clean_other_rows, ?updated_ids.
  all: split; [reflexivity|]. all: split; [reflexivity|].
  all: split; [intros ? Hx Hid; try exact Hx; now apply updated_other|].
  all: intros ? Hv Hid; try exact Hv.
  all: try (apply in_or_app; left; exact Hv).
  all: apply delete_where_keeps; [apply in_or_app; left; exact Hv|].
  all: intros E; apply Hid; now rewrite E.
Qed.

(** X8: the existence check decides on the code of its error alone. With
    any code but PGRST116 the run fails with the error's message behind
    "Erro ao verificar usuário existente: " and the check is its last
    call; with the code PGRST116, which [.single()] gives for no row and
    for several rows alike, the run goes on and calls [createUser]. *)
Theorem existence_check_error_by_code env email password nome cid d c s' data checkError :
  createPortalUser env email password nome cid (start d) = (c, s') ->
  In (mk_event (select_usuarios_eq_email email) (resolved data (Some checkError)))
     (trace s') ->
  if ApiError.code checkError =? "PGRST116"
  then In (admin_createUser email password (metadata nome cid)) (calls s')
  else c = returned
             (mk_response false
                (Some ("Erro ao verificar usuário existente: "
                         ++ ApiError.message checkError)) None None) /\
       calls s' = [rpc_clean_duplicate_usuarios email;
                   select_usuarios_eq_email email] /\
       db s' = set_usuarios d (usuarios_after_clean env email d).
Proof.
  intros H Hin. exec H.
  all: finish H; pick Hin.
  all: injection Hin as <- <-.
  all: unfold usuarios_after_clean, metadata; known_outcomes.
  all: try match goal with E : (ApiError.code _ =? _) = _ |- _ => rewrite E end.
  all: try (simpl; tauto).
  all: repeat split; try reflexivity.
  all: destruct d; reflexivity.
Qed.

(** X9: when [createUser] resolves without an error and without a
    [user], the run fails with "Usuário não foi criado corretamente",
    [createUser] is its last call and the tables are as step 1 left
    them. *)
Theorem missing_user_is_a_failure env email password nome cid d c s' :
  createPortalUser env email password nome cid (start d) = (c, s') ->
  In (mk_event (admin_createUser email password (metadata nome cid))
               (resolved None None))
     (trace s') ->
  c = returned (mk_response false (Some "Usuário não foi criado corretamente")
                  None None) /\
  calls s' = [rpc_clean_duplicate_usuarios email;
              select_usuarios_eq_email email;
              admin_createUser email password (metadata nome cid)] /\
  db s' = set_usuarios d (usuarios_after_clean env email d).
Proof.
  intros H Hin. exec H.
  all: finish H; pick Hin.
  all: unfold usuarios_after_clean, metadata; known_outcomes.
  all: repeat split; try reflexivity.
  all: destruct d; reflexivity.
Qed.

(** X10: when the promise of the synchronization call rejects, instead
    of resolving with an error, the run returns a failure with the
    message of the rejection and issues no [deleteUser]: the
    synchronization call is its last call, the identity of step 3 stays
    in [auth.users], and no row was inserted in [usuarios] nor updated in
    [clientes]. *)
Theorem sync_rejection_is_not_compensated env email password nome cid d c s' X x :
  createPortalUser env email password nome cid (start d) = (c, s') ->
  In (mk_event (rpc_sync_user_after_auth_creation X email nome cid)
               (promise_rejected x))
     (trace s') ->
  c = returned (mk_response false
                  (Some (or_else (exn_message x) "Erro interno do servidor"))
                  None None) /\
  calls s' = [rpc_clean_duplicate_usuarios email;
              select_usuarios_eq_email email;
              admin_createUser email password (metadata nome cid);
              rpc_sync_user_after_auth_creation X email nome cid] /\
  auth_users (db s') = (auth_users d ++ [identity X email nome cid])%list /\
  tbl_usuarios (db s') = usuarios_after_clean env email d /\
  tbl_clientes (db s') = tbl_clientes d.
Proof.
  intros H Hin. exec H.
  all: finish H; pick Hin.
  all: injection Hin as <- <-.
  all: unfold usuarios_after_clean, metadata, identity; known_outcomes.
  all: repeat split; reflexivity.
Qed.

Lemma createPortalUser_returns env email password nome cid s c s' :
  createPortalUser env email password nome cid s = (c, s') ->
  exists r,
    c = returned r /\
    if success r
    then error r = None /\
         message r
         = Some "Portal criado com sucesso! O cliente pode agora fazer login." /\
         userId r = provider_id env /\ userId r <> None
    else (exists msg, error r = Some msg /\ msg <> "") /\
         message r = None /\ userId r = None.
Proof.
  intros H. exec H.
  all: injection H as <- <-; eexists; split; [reflexivity|].
  all: cbn [success error message userId].
  all: repeat split; try reflexivity; try discriminate.
  all: try (symmetry; assumption).
  all: eexists; split; [reflexivity|].
  all: try (apply or_else_nonempty); discriminate.
Qed.

(** X11: the two shapes of a response. A success carries the
    confirmation message and the identifier the provider assigned and no
    [error]; every other response carries an [error] and neither
    [message] nor [userId]. *)
Theorem createPortalUser_response_shape env email password nome cid s c s' :
  createPortalUser env email password nome cid s = (c, s') ->
  exists r,
    c = returned r /\
    if success r
    then error r = None /\
         message r
         = Some "Portal criado com sucesso! O cliente pode agora fazer login." /\
         userId r = provider_id env /\ userId r <> None
    else error r <> None /\ message r = None /\ userId r = None.
Proof.
  intros H. destruct (createPortalUser_returns _ _ _ _ _ _ _ _ H) as (r & Hr & Hshape).
  exists r. split; [exact Hr|].
  destruct (success r); [exact Hshape|].
  destruct Hshape as ((msg & -> & _) & Hm & Hu). repeat split; auto. discriminate.
Qed.

(** ** Runs that succeed, and runs on an email already in use *)

Lemma appended_no_violation (users : list auth.users) i em md c
    (l : list clientes.row) :
  violates_usuario_portal_fkey (users ++ [auth.mk i em md]) i c l = false.
Proof.
  apply (listed_no_violation _ (auth.mk i em md)).
  apply in_or_app. right. left. reflexivity.
Qed.

Lemma success_run env email password nome cid d r s' :
  createPortalUser env email password nome cid (start d) = (returned r, s') ->
  success r = true ->
  exists X cs,
    provider_id env = Some X /\
    userId r = Some X /\
    existsb (fun x => usuarios.id x =? X) (usuarios_after_clean env email d) = false /\
    update_clientes no_faults (now env) (auth_users d ++ [identity X email nome cid])
      X cid (tbl_clientes d) = inr cs /\
    db s' = mk_database (auth_users d ++ [identity X email nome cid])
              (usuarios_after_clean env email d ++ [profile X email nome (now env)])
              cs /\
    (on_check env = delivered ->
     forall p, active_rows email (usuarios_after_clean env email d) <> [p]) /\
    calls s' = [rpc_clean_duplicate_usuarios email;
                select_usuarios_eq_email email;
                admin_createUser email password (metadata nome cid);
                rpc_sync_user_after_auth_creation X email nome cid;
                select_usuarios_eq_id X].
Proof.
  intros H Hs. exec H.
  all: finish H; try discriminate Hs.
  all: settle_sync.
  all: unfold usuarios_after_clean, identity, profile, metadata, active_rows;
    known_outcomes.
  all: eexists _, _; split; [reflexivity|]; split; [reflexivity|].
  all: split; [exact Hpk|].
  all: split; [unfold update_clientes; cbn [on_update_clientes no_faults];
               rewrite appended_no_violation; reflexivity|].
  all: split; [reflexivity|].
  all: split; [|reflexivity].
  all: intros Hc p Hp; try congruence.
  all: rewrite Hp in Erows; discriminate Erows.
Qed.

(** X12: a run that returns a success has changed nothing else: its
    calls are the five of the workflow, and the final database is the
    initial one, deduplicated or not as step 1 went, with the identity
    appended to [auth.users], the Profile appended to [usuarios], whose
    identifier no other row has, and the [UPDATE] of the procedure applied
    to [clientes], the identity being there for its foreign key. *)
Theorem success_changes_nothing_else env email password nome cid d r s' :
  createPortalUser env email password nome cid (start d) = (returned r, s') ->
  success r = true ->
  exists X cs,
    userId r = Some X /\
    update_clientes no_faults (now env) (auth_users d ++ [identity X email nome cid])
      X cid (tbl_clientes d) = inr cs /\
    db s' = mk_database (auth_users d ++ [identity X email nome cid])
              (usuarios_after_clean env email d ++ [profile X email nome (now env)])
              cs /\
    existsb (fun x => usuarios.id x =? X) (usuarios_after_clean env email d) = false /\
    calls s' = [rpc_clean_duplicate_usuarios email;
                select_usuarios_eq_email email;
                admin_createUser email password (metadata nome cid);
                rpc_sync_user_after_auth_creation X email nome cid;
                select_usuarios_eq_id X].
Proof.
  intros H Hs.
  destruct (success_run _ _ _ _ _ _ _ _ H Hs)
    as (X & cs & _ & HX & Hpk & Hcs & Hdb & _ & Hcalls).
  exists X, cs. repeat split; assumption.
Qed.

Lemma success_changes_nothing_else_witness :
  run_success = (returned response_ok, snd run_success) /\
  success response_ok = true /\
  db (snd run_success)
  = mk_database [identity "X" "a@b.com" "Ana" "c-1"] [ana]
      [clientes.mk "c-1" (Some "X") 7%Z (Some "X")].
Proof.
  split; [reflexivity|]. split; [reflexivity|].
  destruct (success_changes_nothing_else (all_delivered "X" 7%Z) "a@b.com" "secret1"
              "Ana" "c-1" db0 response_ok (snd run_success) eq_refl eq_refl)
    as (X & cs & HX & Hcs & Hdb & _).
  injection HX as <-. injection Hcs as <-. exact Hdb.
Defined.

Lemma clean_active_at_most_one e (t : list usuarios.row) :
  NoDup (map usuarios.id t) ->
  (length (active_rows e (clean_duplicate_usuarios e t)) <= 1)%nat.
Proof.
  intros Hnd. rewrite active_rows_clean.
  destruct (kept_ids_cases e t) as [[HA Hk]|(k & Hin & Hk & _)].
  - rewrite HA. simpl. lia.
  - rewrite Hk, (filter_unique_id k); [simpl; lia| |exact Hin].
    now apply NoDup_map_filter.
Qed.

Lemma check_after_clean env email password nome cid d c s' :
  NoDup (map usuarios.id (tbl_usuarios d)) ->
  on_clean env = delivered -> on_check env = delivered ->
  createPortalUser env email password nome cid (start d) = (c, s') ->
  (active_rows email (tbl_usuarios d) <> [] ->
   c = returned (mk_response false (Some "Este email já está cadastrado no sistema")
                   None None) /\
   calls s' = [rpc_clean_duplicate_usuarios email; select_usuarios_eq_email email] /\
   db s' = set_usuarios d (clean_duplicate_usuarios email (tbl_usuarios d))) /\
  (active_rows email (tbl_usuarios d) = [] ->
   In (admin_createUser email password (metadata nome cid)) (calls s')).
Proof.
  intros Hnd Hclean Hcheck H.
  assert (Hle := clean_active_at_most_one email (tbl_usuarios d) Hnd).
  assert (Hne := clean_keeps_an_active_row email (tbl_usuarios d)).
  assert (Hnone : active_rows email (tbl_usuarios d) = [] ->
                  active_rows email (clean_duplicate_usuarios email (tbl_usuarios d)) = []).
  { intros HA. now rewrite active_rows_clean, HA. }
  unfold active_rows in Hle, Hne, Hnone.
  exec H.
  all: try congruence.
  all: cbn [tbl_usuarios set_usuarios] in Erows; rewrite Erows in Hle, Hne, Hnone.
  all: try (simpl in Hle; lia).
  all: finish H; unfold metadata; split; intros Hact.
  all: try (specialize (Hnone Hact); discriminate Hnone).
  all: try (exfalso; apply (Hne Hact); reflexivity).
  all: try (repeat split; reflexivity).
  all: try match goal with
           | E : (ApiError.code (ApiError.mk _ _) =? _) = false |- _ =>
               cbv in E; discriminate E
           end.
  all: simpl; do 2 right; left; reflexivity.
Qed.

(** X13: when the identifiers of [usuarios] are unique and steps 1 and 2
    are carried out, the check is exact: an email that had a non-deleted
    row before the call is refused with the duplicate-email failure after
    the deduplication, and an email that had none is not refused, the run
    going on to [createUser]. *)
Theorem duplicate_check_is_exact env email password nome cid d c s' :
  NoDup (map usuarios.id (tbl_usuarios d)) ->
  on_clean env = delivered -> on_check env = delivered ->
  createPortalUser env email password nome cid (start d) = (c, s') ->
  (active_rows email (tbl_usuarios d) <> [] ->
   c = returned (mk_response false (Some "Este email já está cadastrado no sistema")
                   None None) /\
   calls s' = [rpc_clean_duplicate_usuarios email; select_usuarios_eq_email email] /\
   db s' = set_usuarios d (clean_duplicate_usuarios email (tbl_usuarios d))) /\
  (active_rows email (tbl_usuarios d) = [] ->
   In (admin_createUser email password (metadata nome cid)) (calls s')).
Proof.
  exact (check_after_clean env email password nome cid d c s').
Qed.

Lemma duplicate_check_is_exact_witness :
  NoDup (map usuarios.id (tbl_usuarios db_leftover)) /\
  active_rows "a@b.com" (tbl_usuarios db_leftover) <> [] /\
  fst run_leftover
  = returned (mk_response false (Some "Este email já está cadastrado no sistema")
                None None) /\
  active_rows "a@b.com" (tbl_usuarios db0) = [] /\
  In (admin_createUser "a@b.com" "secret1" (metadata "Ana" "c-1"))
     (calls (snd run_success)).
Proof.
  assert (Hnd : NoDup (map usuarios.id (tbl_usuarios db_leftover))).
  { repeat constructor; simpl; intuition discriminate. }
  assert (Hact : active_rows "a@b.com" (tbl_usuarios db_leftover) <> []).
  { discriminate. }
  split; [exact Hnd|]. split; [exact Hact|].
  split.
  - exact (proj1 (proj1 (duplicate_check_is_exact (all_delivered "X" 7%Z) "a@b.com"
                           "secret1" "Ana" "c-1" db_leftover (fst run_leftover)
                           (snd run_leftover) Hnd eq_refl eq_refl eq_refl) Hact)).
  - split; [reflexivity|].
    exact (proj2 (duplicate_check_is_exact (all_delivered "X" 7%Z) "a@b.com"
                    "secret1" "Ana" "c-1" db0 (fst run_success) (snd run_success)
                    (NoDup_nil _) eq_refl eq_refl eq_refl) eq_refl).
Defined.

Lemma NoDup_ids_inserted i (r : usuarios.row) (t : list usuarios.row) :
  usuarios.id r = i ->
  NoDup (map usuarios.id t) ->
  existsb (fun x => usuarios.id x =? i) t = false ->
  NoDup (map usuarios.id (t ++ [r])).
Proof.
  intros Hr Hnd Hpk. rewrite map_app. simpl.
  apply NoDup_app; [exact Hnd|repeat constructor; auto|].
  intros a Ha [<-|[]]. apply in_map_iff in Ha as (x & Hx & Hin).
  assert (E : existsb (fun x => usuarios.id x =? i) t = true).
  { apply existsb_exists. exists x. split; [exact Hin|].
    apply String.eqb_eq. congruence. }
  congruence.
Qed.

Lemma filter_nil_none {A} (f : A -> bool) (l : list A) (x : A) :
  filter f l = [] -> In x l -> f x = false.
Proof.
  intros Hnil Hx. destruct (f x) eqn:E; [|reflexivity].
  assert (Hin : In x (filter f l)) by (apply filter_In; auto).
  rewrite Hnil in Hin. destruct Hin.
Qed.

(** A non-deleted row appended to a table without a row of its email
    leaves nothing to clean for that email. *)
Lemma inserted_alone_nothing_to_clean e (t : list usuarios.row) (p : usuarios.row) :
  rows_with_email e t = [] -> usuarios.email p = e -> usuarios.deleted_at p = None ->
  no_duplicates e (t ++ [p]) = true.
Proof.
  intros Hnone He Hd. unfold no_duplicates, rows_with_email in *.
  apply andb_true_iff. split.
  - apply forallb_forall. intros r Hr. apply in_app_or in Hr as [Hr|[<-|[]]].
    + now rewrite (filter_nil_none _ _ _ Hnone Hr).
    + rewrite Hd. apply orb_true_r.
  - rewrite filter_app, Hnone. simpl. now rewrite He, String.eqb_refl.
Qed.

(** X14: provisioning an email twice. After a run that returned a
    success on a table with unique identifiers, every later run for the
    same email whose steps 1 and 2 are carried out, whatever its
    password, name and customer, returns the duplicate-email failure and
    creates nothing: [auth.users] and [clientes] stay as the first run
    left them and [usuarios] still holds a non-deleted row of the email.
    When steps 1 and 2 of the first run were carried out too, that row
    is the Profile of the first run, the only row of the email, and the
    second run changes no table at all. (When they were not, the
    deduplication of the second run may keep another, more recent row of
    the email instead.) *)
Theorem second_provisioning_is_refused
    env1 env2 email pw1 pw2 nome1 nome2 cid1 cid2 d r1 s1 c2 s2 :
  NoDup (map usuarios.id (tbl_usuarios d)) ->
  createPortalUser env1 email pw1 nome1 cid1 (start d) = (returned r1, s1) ->
  success r1 = true ->
  on_clean env2 = delivered -> on_check env2 = delivered ->
  createPortalUser env2 email pw2 nome2 cid2 (start (db s1)) = (c2, s2) ->
  c2 = returned (mk_response false (Some "Este email já está cadastrado no sistema")
                   None None) /\
  calls s2 = [rpc_clean_duplicate_usuarios email; select_usuarios_eq_email email] /\
  auth_users (db s2) = auth_users (db s1) /\
  tbl_clientes (db s2) = tbl_clientes (db s1) /\
  active_rows email (tbl_usuarios (db s2)) <> [] /\
  (on_clean env1 = delivered -> on_check env1 = delivered ->
   exists X,
     userId r1 = Some X /\
     db s2 = db s1 /\
     rows_with_email email (tbl_usuarios (db s2))
     = [profile X email nome1 (now env1)]).
Proof.
  intros Hnd H1 Hs1 Hclean Hcheck H2.
  destruct (success_run _ _ _ _ _ _ _ _ H1 Hs1)
    as (X & cs & _ & HX & Hpk & _ & Hdb & Hnot & _).
  assert (Hnd1 : NoDup (map usuarios.id (tbl_usuarios (db s1)))).
  { rewrite Hdb. cbn [tbl_usuarios]. apply (NoDup_ids_inserted X); auto.
    unfold usuarios_after_clean. destruct (on_clean env1); auto using clean_NoDup. }
  assert (Hact : active_rows email (tbl_usuarios (db s1)) <> []).
  { rewrite Hdb. cbn [tbl_usuarios]. unfold active_rows.
    rewrite filter_app_last; [now destruct (filter _ _)|].
    unfold active_with_email, profile. simpl. now rewrite String.eqb_refl. }
  destruct (proj1 (check_after_clean _ _ _ _ _ _ _ _ Hnd1 Hclean Hcheck H2) Hact)
    as (Hc & Hcalls & Hdb2).
  repeat split; auto; try (rewrite Hdb2; reflexivity).
  - rewrite Hdb2. cbn [tbl_usuarios set_usuarios].
    now apply clean_keeps_an_active_row.
  - intros Hclean1 Hcheck1. exists X. split; [exact HX|].
    specialize (Hnot Hcheck1). unfold usuarios_after_clean in Hdb, Hnot.
    rewrite Hclean1 in Hdb, Hnot.
    assert (Hle := clean_active_at_most_one email (tbl_usuarios d) Hnd).
    assert (Hnone : rows_with_email email
                      (clean_duplicate_usuarios email (tbl_usuarios d)) = []).
    { rewrite clean_rows_with_email, <- active_rows_clean.
      destruct (active_rows email (clean_duplicate_usuarios email (tbl_usuarios d)))
        as [|p [|q l]]; [reflexivity| |simpl in Hle; lia].
      now destruct (Hnot p). }
    assert (Hfix : clean_duplicate_usuarios email (tbl_usuarios (db s1))
                   = tbl_usuarios (db s1)).
    { rewrite Hdb. cbn [tbl_usuarios]. apply clean_nothing_to_clean.
      now apply inserted_alone_nothing_to_clean. }
    rewrite Hdb2, Hfix. split; [now destruct (db s1)|].
    cbn [tbl_usuarios set_usuarios]. rewrite Hdb. cbn [tbl_usuarios].
    unfold rows_with_email in *. rewrite filter_app, Hnone. simpl.
    now rewrite String.eqb_refl.
Qed.

Lemma second_provisioning_is_refused_witness :
  NoDup (map usuarios.id (tbl_usuarios db0)) /\
  run_success = (returned response_ok, snd run_success) /\
  fst run_again
  = returned (mk_response false (Some "Este email já está cadastrado no sistema")
                None None) /\
  auth_users (db (snd run_again)) = auth_users (db (snd run_success)) /\
  tbl_clientes (db (snd run_again)) = tbl_clientes (db (snd run_success)) /\
  db (snd run_again) = db (snd run_success) /\
  rows_with_email "a@b.com" (tbl_usuarios (db (snd run_again))) = [ana].
Proof.
  split; [apply NoDup_nil|]. split; [reflexivity|].
  destruct (second_provisioning_is_refused (all_delivered "X" 7%Z)
              (all_delivered "Z" 9%Z) "a@b.com" "secret1" "other-secret" "Ana"
              "Ana Maria" "c-1" "c-2" db0 response_ok (snd run_success)
              (fst run_again) (snd run_again) (NoDup_nil _) eq_refl eq_refl eq_refl
              eq_refl eq_refl)
    as (H1 & _ & H3 & H4 & _ & H6).
  destruct (H6 eq_refl eq_refl) as (X & HX & Hdb & Hrows).
  injection HX as <-. auto 10.
Defined.

(** X15: the check lets an email through that has several non-deleted
    rows. When step 1 did not throw, the check is carried out and the
    table then holds two or more non-deleted rows of the email,
    [.single()] answers PGRST116 and the run calls [createUser]; if it
    then returns a success, the email has one more non-deleted row. *)
Theorem several_active_rows_pass_the_check env email password nome cid d c s' :
  createPortalUser env email password nome cid (start d) = (c, s') ->
  (forall x, on_clean env <> thrown x) ->
  on_check env = delivered ->
  (2 <= length (active_rows email (usuarios_after_clean env email d)))%nat ->
  In (admin_createUser email password (metadata nome cid)) (calls s') /\
  (forall r X, c = returned r -> success r = true -> userId r = Some X ->
               active_rows email (tbl_usuarios (db s'))
               = (active_rows email (usuarios_after_clean env email d)
                    ++ [profile X email nome (now env)])%list).
Proof.
  intros H Hclean Hcheck Hlen. split.
  - unfold usuarios_after_clean, active_rows in Hlen. exec H.
    all: try congruence.
    all: try (exfalso; eapply Hclean; reflexivity).
    all: cbn beta iota in Hlen.
    all: cbn [tbl_usuarios set_usuarios] in Erows; try rewrite Erows in Hlen.
    all: try (simpl in Hlen; lia).
    all: try match goal with
             | E : (ApiError.code (ApiError.mk _ _) =? _) = false |- _ =>
                 cbv in E; discriminate E
             end.
    all: finish H; unfold metadata; simpl; do 2 right; left; reflexivity.
  - intros r X -> Hs HX.
    destruct (success_run _ _ _ _ _ _ _ _ H Hs)
      as (X' & cs & _ & HX' & _ & _ & -> & _ & _).
    assert (X' = X) as -> by congruence.
    cbn [tbl_usuarios]. unfold active_rows. apply filter_app_last.
    unfold active_with_email, profile. simpl. now rewrite String.eqb_refl.
Qed.

Lemma several_active_rows_pass_the_check_witness :
  (2 <= length (active_rows "a@b.com"
                  (usuarios_after_clean env_clean_rejected "a@b.com" db_two_active)))%nat /\
  In (admin_createUser "a@b.com" "secret1" (metadata "Ana" "c-1"))
     (calls (snd run_two_active)) /\
  fst run_two_active = returned response_ok /\
  active_rows "a@b.com" (tbl_usuarios (db (snd run_two_active)))
  = [first_ana; last_ana; profile "X" "a@b.com" "Ana" 10%Z].
Proof.
  assert (Hlen : (2 <= length (active_rows "a@b.com"
                                 (usuarios_after_clean env_clean_rejected "a@b.com"
                                    db_two_active)))%nat).
  { simpl. lia. }
  assert (Hclean : forall x, on_clean env_clean_rejected <> thrown x).
  { intros x. discriminate. }
  split; [exact Hlen|].
  destruct (several_active_rows_pass_the_check env_clean_rejected "a@b.com" "secret1"
              "Ana" "c-1" db_two_active (fst run_two_active) (snd run_two_active)
              eq_refl Hclean eq_refl Hlen) as (H1 & H2).
  split; [exact H1|]. split; [reflexivity|].
  exact (H2 response_ok "X" eq_refl eq_refl eq_refl).
Defined.

(** ** The diagnostic lookup, again *)

(** X16: [testUserSync] returns a report exactly when the listing is
    answered, an identity has the email, the lookup is answered and one
    and only one non-deleted row of [usuarios] has the email; in every
    other case it returns [undefined] and throws nothing; and when the
    listing fails or no identity has the email it does not query
    [usuarios]. *)
Theorem testUserSync_report_conditions env email d c s' :
  testUserSync env email (start d) = (c, s') ->
  ((exists rep, c = returned (Some rep)) <->
   (on_listUsers env = delivered /\
    (exists a, In a (auth_users d) /\ auth.email a = email) /\
    on_lookup env = delivered /\
    exists p, active_rows email (tbl_usuarios d) = [p])) /\
  (c = returned None \/ exists rep, c = returned (Some rep)) /\
  (on_listUsers env <> delivered \/
   (forall a, In a (auth_users d) -> auth.email a <> email) ->
   calls s' = [admin_listUsers]).
Proof.
  intros H. unfold active_rows. exec H.
  all: finish H.
  all: try (apply find_some in Efind as [Hfa Hfe]; apply String.eqb_eq in Hfe).
  all: split; [split; [intros [rep Hrep]|intros (Hl & (a & Ha & He) & Hk & p & Hp)]
              |split; [|intros [Hl|Hno]]].
  (* a report was returned: the four conditions hold *)
  all: try discriminate Hrep.
  all: try (clear Hrep; repeat split; eauto; fail).
  (* the four conditions hold: a report is returned *)
  all: try (eexists; reflexivity).
  all: try congruence.
  all: try (apply (find_none _ _ Efind) in Ha;
            rewrite He, String.eqb_refl in Ha; discriminate Ha).
  all: try (rewrite Hp in Erows; discriminate Erows).
  (* nothing is thrown *)
  all: try (left; reflexivity).
  all: try (right; eexists; reflexivity).
  (* no query of usuarios without an identity *)
  all: try reflexivity.
  all: exfalso; eapply Hno; eauto.
Qed.

Lemma find_app_last {A} (f : A -> bool) (l : list A) (x : A) :
  (forall a, In a l -> f a = false) -> f x = true -> find f (l ++ [x]) = Some x.
Proof.
  induction l as [|a l IH]; simpl; intros Hl Hx; [now rewrite Hx|].
  rewrite (Hl a (or_introl eq_refl)). apply IH; auto.
Qed.

Lemma testUserSync_answered env email d a p :
  on_listUsers env = delivered -> on_lookup env = delivered ->
  find (fun u => auth.email u =? email) (auth_users d) = Some a ->
  active_rows email (tbl_usuarios d) = [p] ->
  fst (testUserSync env email (start d))
  = returned (Some (mk_report (auth.id a) (usuarios.id p)
                      (auth.id a =? usuarios.id p))).
Proof.
  intros Hl Hk Hf Hp. unfold active_rows in Hp. run_client.
  rewrite Hl. cbn [db trace Reply.data Reply.error fst snd].
  rewrite Hf, Hk. cbn [db trace Reply.data Reply.error fst snd].
  rewrite Hp. reflexivity.
Qed.

(** X17: provisioning, then diagnosing. After a run that returned a
    success, on a table with unique identifiers, with steps 1 and 2
    carried out and no earlier identity of that email, the diagnostic
    lookup for the email, when its two reads are answered, reports the
    returned identifier on both sides and [idsMatch = true]. *)
Theorem diagnostic_after_provisioning env env' email password nome cid d r s1 :
  NoDup (map usuarios.id (tbl_usuarios d)) ->
  (forall u, In u (auth_users d) -> auth.email u <> email) ->
  on_clean env = delivered -> on_check env = delivered ->
  createPortalUser env email password nome cid (start d) = (returned r, s1) ->
  success r = true ->
  on_listUsers env' = delivered -> on_lookup env' = delivered ->
  exists X,
    userId r = Some X /\
    fst (testUserSync env' email (start (db s1)))
    = returned (Some (mk_report X X true)).
Proof.
  intros Hnd Hnew Hclean Hcheck H Hs Hl Hk.
  destruct (success_run _ _ _ _ _ _ _ _ H Hs)
    as (X & cs & _ & HX & _ & _ & Hdb & Hnot & _).
  exists X. split; [exact HX|].
  specialize (Hnot Hcheck). unfold usuarios_after_clean in Hdb, Hnot.
  rewrite Hclean in Hdb, Hnot.
  assert (Hle := clean_active_at_most_one email (tbl_usuarios d) Hnd).
  assert (Hnone : active_rows email (clean_duplicate_usuarios email (tbl_usuarios d)) = []).
  { destruct (active_rows email (clean_duplicate_usuarios email (tbl_usuarios d)))
      as [|p [|q l]]; [reflexivity| |simpl in Hle; lia].
    now destruct (Hnot p). }
  rewrite (testUserSync_answered env' email (db s1) (identity X email nome cid)
             (profile X email nome (now env)) Hl Hk).
  - cbn [auth.id identity usuarios.id profile]. now rewrite String.eqb_refl.
  - rewrite Hdb. cbn [auth_users]. apply find_app_last.
    + intros a Ha. apply String.eqb_neq. now apply Hnew.
    + apply String.eqb_refl.
  - rewrite Hdb. cbn [tbl_usuarios]. unfold active_rows in *.
    rewrite filter_app_last, Hnone; [reflexivity|].
    unfold active_with_email, profile. simpl. now rewrite String.eqb_refl.
Qed.

Lemma diagnostic_after_provisioning_witness :
  NoDup (map usuarios.id (tbl_usuarios db0)) /\
  run_success = (returned response_ok, snd run_success) /\
  exists X,
    userId response_ok = Some X /\
    fst (testUserSync (all_delivered "X" 7%Z) "a@b.com" (start (db (snd run_success))))
    = returned (Some (mk_report X X true)).
Proof.
  split; [apply NoDup_nil|]. split; [reflexivity|].
  apply (diagnostic_after_provisioning (all_delivered "X" 7%Z) (all_delivered "X" 7%Z)
           "a@b.com" "secret1" "Ana" "c-1" db0 response_ok (snd run_success)
           (NoDup_nil _)); try reflexivity.
  intros u [].
Defined.

(** ** The hook *)

Lemma hook_run env email password nome cid u s :
  exists r s',
    createPortalUser env email password nome cid s = (returned r, s') /\
    exists t,
      useCreatePortalUser_createUser env email password nome cid u s
      = (returned r, mk_ui false (toasts u ++ [t]), s') /\
      (success r = true ->
       t = toast_success
             "Portal criado com sucesso! O cliente pode agora fazer login.") /\
      (success r = false -> exists msg, error r = Some msg /\ t = toast_error msg).
Proof.
  destruct (createPortalUser env email password nome cid s) as [c s'] eqn:H.
  destruct (createPortalUser_returns _ _ _ _ _ _ _ _ H) as (r & -> & Hshape).
  exists r, s'. split; [reflexivity|].
  unfold useCreatePortalUser_createUser. rewrite H.
  destruct (success r) eqn:Hs.
  - destruct Hshape as (_ & Hm & _). rewrite Hm.
    eexists. split; [reflexivity|]. split; [reflexivity|discriminate].
  - destruct Hshape as ((msg & He & Hne) & _). rewrite He.
    eexists. split; [reflexivity|]. split; [discriminate|].
    intros _. exists msg. split; [reflexivity|].
    cbn [or_else_opt]. now rewrite or_else_left.
Qed.

(** The module does not bind [useState]: the hook throws unless the
    global object binds it. *)
Lemma useCreatePortalUser_cases globals u :
  (~ In "useState" globals /\
   useCreatePortalUser globals u = threw (Error "useState is not defined")) \/
  (In "useState" globals /\
   useCreatePortalUser globals u
   = returned (Hook.mk useCreatePortalUser_createUser (loading u))).
Proof.
  unfold useCreatePortalUser, resolve_name. rewrite existsb_app.
  change (existsb (String.eqb "useState") portalAuth_scope) with false.
  cbn [orb].
  destruct (existsb (String.eqb "useState") globals) eqn:E.
  - right. split; [|reflexivity].
    apply existsb_exists in E as (x & Hx & Hxe). apply String.eqb_eq in Hxe.
    now subst x.
  - left. split; [|reflexivity]. intros Hin.
    assert (E' : existsb (String.eqb "useState") globals = true).
    { apply existsb_exists. exists "useState". split; [exact Hin|reflexivity]. }
    congruence.
Qed.

(** X18: [useCreatePortalUser] evaluates [useState], a name that
    [portalAuth.ts] neither imports nor declares: unless the global
    object binds it, the hook throws a [ReferenceError] and returns no
    [createUser]. When the global object binds it, the hook returns the
    current [loading] and a [createUser] that never throws and returns
    what [createPortalUser] returns, with the same remote effects; when
    that [createUser] is over [loading] is false and exactly one toast
    was added: a success toast with the confirmation message for a
    success, an error toast with the [error] of the response otherwise,
    never one of the fallback texts. *)
Theorem hook_shows_the_outcome globals u0 :
  (~ In "useState" globals ->
   useCreatePortalUser globals u0 = threw (Error "useState is not defined")) /\
  (In "useState" globals ->
   exists h,
     useCreatePortalUser globals u0 = returned h /\
     Hook.loading h = loading u0 /\
     forall env email password nome cid u s,
     exists r s',
       createPortalUser env email password nome cid s = (returned r, s') /\
       exists t,
         Hook.createUser h env email password nome cid u s
         = (returned r, mk_ui false (toasts u ++ [t]), s') /\
         (success r = true ->
          t = toast_success
                "Portal criado com sucesso! O cliente pode agora fazer login.") /\
         (success r = false ->
          exists msg, error r = Some msg /\ t = toast_error msg)).
Proof.
  destruct (useCreatePortalUser_cases globals u0) as [[Hno E]|[Hyes E]].
  - split; [intros _; exact E|intros Hin; contradiction].
  - split; [intros Hno; contradiction|]. intros _.
    eexists. split; [exact E|]. split; [reflexivity|].
    intros env email password nome cid u s. cbn [Hook.createUser].
    apply hook_run.
Qed.

Lemma hook_shows_the_outcome_witness :
  ~ In "useState" globals_plain /\
  useCreatePortalUser globals_plain ui0 = threw (Error "useState is not defined") /\
  In "useState" globals_with_useState /\
  exists h,
    useCreatePortalUser globals_with_useState ui0 = returned h /\
    Hook.createUser h (all_delivered "X" 7%Z) "a@b.com" "secret1" "Ana" "c-1" ui0
      (start db0)
    = (returned response_ok,
       mk_ui false
         [toast_success "Portal criado com sucesso! O cliente pode agora fazer login."],
       snd run_success) /\
    Hook.createUser h env_auth_rejected "a@b.com" "secret1" "Ana" "c-1" ui0 (start db0)
    = (returned (mk_response false
                   (Some "Erro na autenticação: User already registered") None None),
       mk_ui false [toast_error "Erro na autenticação: User already registered"],
       snd run_auth_rejected).
Proof.
  assert (Hno : ~ In "useState" globals_plain).
  { simpl. intuition discriminate. }
  assert (Hyes : In "useState" globals_with_useState).
  { left. reflexivity. }
  split; [exact Hno|].
  split; [exact (proj1 (hook_shows_the_outcome globals_plain ui0) Hno)|].
  split; [exact Hyes|].
  destruct (proj2 (hook_shows_the_outcome globals_with_useState ui0) Hyes)
    as (h & Hh & _ & Hcreate).
  exists h. split; [exact Hh|]. split.
  - destruct (Hcreate (all_delivered "X" 7%Z) "a@b.com" "secret1" "Ana" "c-1" ui0
                (start db0)) as (r & s' & Hrun & t & Hhook & Hok & _).
    change (run_success = (returned r, s')) in Hrun.
    assert (Hr : r = response_ok).
    { vm_compute in Hrun. now injection Hrun as <- _. }
    subst r. assert (Hs : s' = snd run_success) by now rewrite Hrun.
    rewrite Hhook, (Hok eq_refl), Hs. reflexivity.
  - destruct (Hcreate env_auth_rejected "a@b.com" "secret1" "Ana" "c-1" ui0
                (start db0)) as (r & s' & Hrun & t & Hhook & _ & Hfail).
    change (run_auth_rejected = (returned r, s')) in Hrun.
    assert (Hr : r = mk_response false
                       (Some "Erro na autenticação: User already registered")
                       None None).
    { vm_compute in Hrun. now injection Hrun as <- _. }
    subst r. assert (Hs : s' = snd run_auth_rejected) by now rewrite Hrun.
    destruct (Hfail eq_refl) as (msg & Hmsg & ->). injection Hmsg as <-.
    rewrite Hhook, Hs. reflexivity.
Defined.

(** ** The form of the modal *)

Section Regex.

Local Open Scope list_scope.

Lemma nullable_lang r : nullable r = true <-> lang r [].
Proof.
  split.
  - induction r; simpl; intros H; try discriminate.
    + constructor.
    + apply andb_true_iff in H as [H1 H2].
      apply (lang_seq r1 r2 [] []); auto.
    + apply orb_true_iff in H as [H|H]; [apply lang_alt_l|apply lang_alt_r]; auto.
    + constructor.
  - intros H. remember [] as l eqn:El.
    induction H; simpl; subst; try reflexivity; try discriminate.
    + apply app_eq_nil in El as [-> ->]. now rewrite IHlang1, IHlang2.
    + now rewrite IHlang.
    + rewrite IHlang by reflexivity. apply orb_true_r.
Qed.

Lemma deriv_sound c r : forall l, lang (deriv c r) l -> lang r (c :: l).
Proof.
  induction r; simpl; intros l H.
  - inversion H.
  - inversion H.
  - destruct (p c) eqn:E; inversion H; subst. now constructor.
  - assert (Hseq : forall l, lang (Seq (deriv c r1) r2) l -> lang (Seq r1 r2) (c :: l)).
    { intros l0 H0. inversion H0; subst.
      change (c :: l1 ++ l2) with ((c :: l1) ++ l2). constructor; auto. }
    destruct (nullable r1) eqn:N; [|now apply Hseq].
    inversion H; subst; [now apply Hseq|].
    change (c :: l) with ([] ++ c :: l). constructor; [|auto].
    now apply nullable_lang.
  - inversion H; subst; [apply lang_alt_l|apply lang_alt_r]; auto.
  - inversion H; subst.
    change (c :: l1 ++ l2) with ((c :: l1) ++ l2). constructor; auto.
Qed.

Lemma deriv_complete c r l0 :
  lang r l0 -> forall k, l0 = c :: k -> lang (deriv c r) k.
Proof.
  induction 1; intros k E; simpl.
  - discriminate.
  - injection E as -> <-. rewrite H. constructor.
  - destruct l1 as [|a l1].
    + simpl in E.
      assert (N : nullable r1 = true) by now apply nullable_lang.
      rewrite N. apply lang_alt_r. now apply IHlang2.
    + injection E as -> <-.
      assert (Hd : lang (Seq (deriv c r1) r2) (l1 ++ l2)).
      { constructor; auto. }
      destruct (nullable r1); [now apply lang_alt_l|exact Hd].
  - apply lang_alt_l. auto.
  - apply lang_alt_r. auto.
  - discriminate.
  - destruct l1 as [|a l1].
    + simpl in E. now apply IHlang2.
    + injection E as -> <-. constructor; auto.
Qed.

Lemma matches_lang l : forall r, matches r l = true <-> lang r l.
Proof.
  induction l as [|c l IH]; intros r; simpl.
  - apply nullable_lang.
  - rewrite IH. split; [apply deriv_sound|].
    intros H. now apply (deriv_complete c r (c :: l)).
Qed.

Lemma lang_chars_inv p l : lang (Chars p) l <-> exists c, l = [c] /\ p c = true.
Proof.
  split.
  - intros H. inversion H; subst. eauto.
  - intros (c & -> & Hc). now constructor.
Qed.

Lemma lang_seq_inv r1 r2 l :
  lang (Seq r1 r2) l <-> exists l1 l2, l = (l1 ++ l2)%list /\ lang r1 l1 /\ lang r2 l2.
Proof.
  split.
  - intros H. inversion H; subst. eauto.
  - intros (l1 & l2 & -> & H1 & H2). now constructor.
Qed.

Lemma lang_star_class p l : lang (Star (Chars p)) l <-> forallb p l = true.
Proof.
  split.
  - intros H. remember (Star (Chars p)) as r eqn:Er.
    induction H; try discriminate; [reflexivity|].
    injection Er as ->. apply lang_chars_inv in H as (c & -> & Hc). simpl.
    rewrite Hc. now apply IHlang2.
  - induction l as [|c l IH]; simpl; intros H; [constructor|].
    apply andb_true_iff in H as [Hc Hl].
    change (c :: l) with ([c] ++ l). constructor; [now constructor|auto].
Qed.

Lemma lang_plus_class p l :
  lang (Plus (Chars p)) l <-> l <> [] /\ forallb p l = true.
Proof.
  unfold Plus. rewrite lang_seq_inv. split.
  - intros (l1 & l2 & -> & H1 & H2).
    apply lang_chars_inv in H1 as (c & -> & Hc). apply lang_star_class in H2.
    split; [discriminate|]. simpl. now rewrite Hc.
  - intros [Hne H]. destruct l as [|c l]; [contradiction|].
    simpl in H. apply andb_true_iff in H as [Hc Hl].
    exists [c], l. repeat split; [now constructor|now apply lang_star_class].
Qed.

(** X19: the pattern of the email field accepts exactly the strings made
    of a local part, one "@", and a domain that has a dot with something
    before it and something after it, where the local part and the two
    sides of that dot are non-empty and hold neither white space nor
    "@" (further dots are allowed anywhere). *)
Theorem email_pattern_accepts s :
  regex_test email_pattern s = true <->
  exists local before after : list ascii,
    list_ascii_of_string s
    = (local ++ "@"%char :: before ++ "."%char :: after)%list /\
    local <> [] /\ before <> [] /\ after <> [] /\
    forallb not_space_nor_at local = true /\
    forallb not_space_nor_at before = true /\
    forallb not_space_nor_at after = true.
Proof.
  unfold regex_test, email_pattern. rewrite matches_lang. split.
  - intros H.
    apply lang_seq_inv in H as (l1 & r1 & -> & H1 & H).
    apply lang_seq_inv in H as (l2 & r2 & -> & H2 & H).
    apply lang_seq_inv in H as (l3 & r3 & -> & H3 & H).
    apply lang_seq_inv in H as (l4 & l5 & -> & H4 & H5).
    apply lang_plus_class in H1 as [N1 F1].
    apply lang_plus_class in H3 as [N3 F3].
    apply lang_plus_class in H5 as [N5 F5].
    apply lang_chars_inv in H2 as (c2 & -> & E2).
    apply lang_chars_inv in H4 as (c4 & -> & E4).
    apply Ascii.eqb_eq in E2, E4. subst c2 c4.
    exists l1, l3, l5. repeat split; auto.
  - intros (l1 & l3 & l5 & E & N1 & N3 & N5 & F1 & F3 & F5). rewrite E.
    constructor; [now apply lang_plus_class|].
    change ("@"%char :: l3 ++ "."%char :: l5)
      with (["@"%char] ++ l3 ++ ["."%char] ++ l5).
    constructor; [constructor; apply Ascii.eqb_refl|].
    constructor; [now apply lang_plus_class|].
    constructor; [constructor; apply Ascii.eqb_refl|now apply lang_plus_class].
Qed.

End Regex.

Lemma trimStart_nil l : trimStart l = [] <-> forallb is_space l = true.
Proof.
  induction l as [|c l IH]; simpl; [tauto|].
  destruct (is_space c); simpl; [exact IH|]. split; discriminate.
Qed.

Lemma forallb_trimStart l : forallb is_space (trimStart l) = forallb is_space l.
Proof.
  induction l as [|c l IH]; simpl; [reflexivity|].
  destruct (is_space c) eqn:E; simpl; [exact IH|]. now rewrite E.
Qed.

Lemma forallb_rev {A} (f : A -> bool) (l : list A) :
  forallb f (rev l) = forallb f l.
Proof.
  destruct (forallb f l) eqn:E.
  - rewrite forallb_forall in *. intros x Hx. apply E. now apply in_rev.
  - destruct (forallb f (rev l)) eqn:E'; [|reflexivity].
    rewrite <- E. symmetry. rewrite forallb_forall in *.
    intros x Hx. apply E'. now apply in_rev in Hx.
Qed.

Lemma trimEnd_nil l : trimEnd l = [] <-> forallb is_space l = true.
Proof.
  unfold trimEnd. rewrite <- (forallb_rev is_space l), <- trimStart_nil.
  split; intros H.
  - apply (f_equal (@rev ascii)) in H. now rewrite rev_involutive in H.
  - now rewrite H.
Qed.

Lemma string_of_list_ascii_nil l : string_of_list_ascii l = "" <-> l = [].
Proof.
  destruct l; simpl; split; try reflexivity; discriminate.
Qed.

Lemma trim_empty s :
  is_empty (trim s) = true <-> forallb is_space (list_ascii_of_string s) = true.
Proof.
  unfold is_empty, trim. rewrite String.eqb_eq, string_of_list_ascii_nil.
  now rewrite trimEnd_nil, forallb_trimStart.
Qed.

Lemma not_blank_iff s :
  is_empty (trim s) = false <->
  existsb (fun c => negb (is_space c)) (list_ascii_of_string s) = true.
Proof.
  destruct (is_empty (trim s)) eqn:E.
  - apply trim_empty in E. split; [discriminate|]. intros H. exfalso.
    apply existsb_exists in H as (c & Hc & Hs).
    rewrite forallb_forall in E. rewrite (E c Hc) in Hs. discriminate.
  - split; [intros _|reflexivity].
    destruct (existsb (fun c => negb (is_space c)) (list_ascii_of_string s)) eqn:X;
      [reflexivity|].
    assert (F : forallb is_space (list_ascii_of_string s) = true).
    { apply forallb_forall. intros c Hc.
      destruct (is_space c) eqn:Hs; [reflexivity|].
      rewrite <- X. apply existsb_exists. exists c. now rewrite Hs. }
    apply trim_empty in F. congruence.
Qed.

(** X20: [validateForm] accepts a form exactly when the email matches
    the pattern, the password has six code units or more, the
    confirmation is the password, and the name has a character that is
    not white space; the tests for empty fields add nothing to these. *)
Theorem validateForm_accepts m :
  fst (validateForm m) = true <->
  regex_test email_pattern (FormData.email (formData m)) = true /\
  6 <= String.length (FormData.password (formData m)) /\
  FormData.confirmPassword (formData m) = FormData.password (formData m) /\
  existsb (fun c => negb (is_space c))
    (list_ascii_of_string (FormData.nomeCliente (formData m))) = true.
Proof.
  unfold validateForm, validation_errors, has_no_key. cbn [fst].
  destruct (formData m) as [e p q n]. cbn [FormErrors.email FormErrors.password
    FormErrors.confirmPassword FormErrors.nomeCliente FormData.email
    FormData.password FormData.confirmPassword FormData.nomeCliente].
  rewrite <- not_blank_iff. unfold is_empty at 1 2 3.
  destruct (String.eqb_spec e "") as [->|He].
  { simpl. split; [discriminate|]. intros [H _]. discriminate H. }
  destruct (regex_test email_pattern e); simpl;
    [|split; [discriminate|intros [H _]; discriminate H]].
  destruct (String.eqb_spec p "") as [->|Hp].
  { simpl. split; [discriminate|]. intros (_ & H & _). simpl in H. lia. }
  destruct (Nat.ltb_spec (String.length p) 6) as [Hlt|Hge]; simpl.
  { split; [discriminate|]. intros (_ & H & _). lia. }
  destruct (String.eqb_spec q "") as [->|Hq].
  { simpl. split; [discriminate|]. intros (_ & _ & H & _). congruence. }
  destruct (String.eqb_spec p q) as [->|Hpq]; simpl.
  - destruct (is_empty (trim n)); simpl.
    + split; [discriminate|]. intros (_ & _ & _ & H). discriminate H.
    + split; auto.
  - split; [discriminate|]. intros (_ & _ & H & _). congruence.
Qed.

Lemma validateForm_keeps m :
  isOpen (snd (validateForm m)) = isOpen m /\
  formData (snd (validateForm m)) = formData m /\
  onSuccess_calls (snd (validateForm m)) = onSuccess_calls m /\
  has_no_key (formErrors (snd (validateForm m))) = fst (validateForm m).
Proof.
  unfold validateForm. simpl. auto.
Qed.

(** X21: a render of [PortalCreationModal] calls [useCreatePortalUser]
    at line 38 and throws its [ReferenceError] unless the global object
    binds [useState]: no [handleSubmit] exists then. When it is bound,
    the [handleSubmit] of the render calls nothing for a form that does
    not validate: the remote state, the toasts and the fields stay as
    they were, the dialog stays as it was and an error is recorded. For
    a form that validates it runs [createPortalUser] once, with the
    fields of the form and the id of the customer, and shows one toast;
    after a success the dialog is closed, the form is back to its initial
    content, so the password is gone, and [onSuccess] has been called
    once; after a failure the dialog and the fields, password included,
    are as they were. *)
Theorem handleSubmit_outcomes globals env cliente a :
  (~ In "useState" globals ->
   PortalCreationModal globals env cliente a
   = threw (Error "useState is not defined")) /\
  (In "useState" globals ->
   exists c,
     PortalCreationModal globals env cliente a = returned c /\
     let a' := Modal.handleSubmit c a in
     let d := formData (view a) in
     (fst (validateForm (view a)) = false ->
      remote_state a' = remote_state a /\ hook a' = hook a /\
      isOpen (view a') = isOpen (view a) /\ formData (view a') = d /\
      onSuccess_calls (view a') = onSuccess_calls (view a) /\
      has_no_key (formErrors (view a')) = false) /\
     (fst (validateForm (view a)) = true ->
      exists r s',
        createPortalUser env (FormData.email d) (FormData.password d)
          (FormData.nomeCliente d) (Cliente.id cliente) (remote_state a)
        = (returned r, s') /\
        remote_state a' = s' /\
        loading (hook a') = false /\
        length (toasts (hook a')) = S (length (toasts (hook a))) /\
        if success r
        then isOpen (view a') = false /\
             formData (view a') = initial_formData cliente /\
             formErrors (view a') = no_errors /\
             onSuccess_calls (view a') = S (onSuccess_calls (view a))
        else isOpen (view a') = isOpen (view a) /\
             formData (view a') = d /\
             onSuccess_calls (view a') = onSuccess_calls (view a))).
Proof.
  unfold PortalCreationModal.
  destruct (useCreatePortalUser_cases globals (hook a)) as [[Hno E]|[Hyes E]];
    rewrite E.
  { split; [reflexivity|intros Hin; contradiction]. }
  split; [intros Hno; contradiction|]. intros _.
  eexists. split; [reflexivity|]. cbn [Modal.handleSubmit Hook.createUser].
  cbv zeta. unfold handleSubmit.
  destruct (validateForm_keeps (view a)) as (Ho & Hd & Hn & Hk).
  set (d := formData (view a)) in *.
  destruct (validateForm (view a)) as [valid m1]. cbn [fst snd] in *.
  split; intros Hv; rewrite Hv in *; cbn [negb].
  - cbn [remote_state hook view]. auto 10.
  - rewrite Hd.
    destruct (hook_run env (FormData.email d) (FormData.password d)
                (FormData.nomeCliente d) (Cliente.id cliente) (hook a)
                (remote_state a)) as (r & s' & Hrun & t & Hhook & _).
    exists r, s'. split; [exact Hrun|]. rewrite Hhook.
    destruct (success r); cbn [remote_state hook view loading toasts isOpen
      formData formErrors onSuccess_calls]; rewrite ?length_app; simpl;
      repeat split; auto; lia.
Qed.

Lemma handleSubmit_outcomes_witness :
  ~ In "useState" globals_plain /\
  PortalCreationModal globals_plain (all_delivered "X" 7%Z) cliente1
    (app_with form_ok db0)
  = threw (Error "useState is not defined") /\
  In "useState" globals_with_useState /\
  (exists c,
      PortalCreationModal globals_with_useState (all_delivered "X" 7%Z) cliente1
        (app_with form_short db0) = returned c /\
      fst (validateForm (view (app_with form_short db0))) = false /\
      remote_state (Modal.handleSubmit c (app_with form_short db0)) = start db0) /\
  (exists c,
      PortalCreationModal globals_with_useState (all_delivered "X" 7%Z) cliente1
        (app_with form_ok db0) = returned c /\
      fst (validateForm (view (app_with form_ok db0))) = true /\
      remote_state (Modal.handleSubmit c (app_with form_ok db0)) = snd run_success /\
      formData (view (Modal.handleSubmit c (app_with form_ok db0)))
      = FormData.mk "a@b.com" "" "" "Ana").
Proof.
  assert (Hno : ~ In "useState" globals_plain).
  { simpl. intuition discriminate. }
  assert (Hyes : In "useState" globals_with_useState).
  { left. reflexivity. }
  split; [exact Hno|].
  split; [exact (proj1 (handleSubmit_outcomes globals_plain (all_delivered "X" 7%Z)
                          cliente1 (app_with form_ok db0)) Hno)|].
  split; [exact Hyes|]. split.
  - destruct (proj2 (handleSubmit_outcomes globals_with_useState
                       (all_delivered "X" 7%Z) cliente1 (app_with form_short db0))
                Hyes) as (c & Hc & Hbad & _).
    exists c. split; [exact Hc|]. split; [reflexivity|].
    exact (proj1 (Hbad eq_refl)).
  - destruct (proj2 (handleSubmit_outcomes globals_with_useState
                       (all_delivered "X" 7%Z) cliente1 (app_with form_ok db0))
                Hyes) as (c & Hc & _ & Hgood).
    exists c. split; [exact Hc|]. split; [reflexivity|].
    destruct (Hgood eq_refl) as (r & s' & Hrun & Hs & _ & _ & Hif).
    change (run_success = (returned r, s')) in Hrun.
    assert (Hr : r = response_ok).
    { vm_compute in Hrun. now injection Hrun as <- _. }
    subst r. cbn [success response_ok] in Hif. destruct Hif as (_ & Hf & _).
    split; [|exact Hf]. rewrite Hs. now rewrite Hrun.
Defined.

Lemma testUserSync_result env email s c s' :
  testUserSync env email s = (c, s') ->
  db s' = db s /\
  (c = returned None \/
   exists au p,
     find (fun u => auth.email u =? email) (auth_users (db s)) = Some au /\
     active_rows email (tbl_usuarios (db s)) = [p] /\
     c = returned (Some (mk_report (auth.id au) (usuarios.id p)
                           (auth.id au =? usuarios.id p)))).
Proof.
  intros H. unfold active_rows. exec H.
  all: injection H as <- <-; cbn [db].
  all: split; [reflexivity|].
  all: try (left; reflexivity).
  all: right; eexists _, _; repeat split; eauto.
Qed.

(** X22: [handleTestSync] leaves the component and the database alone
    and adds at most one toast. With an empty email it calls nothing and
    shows "Digite um email para testar". Otherwise it runs
    [testUserSync] once, which throws nothing, and shows what it
    returned: no toast for [undefined], the success toast for a report
    with [idsMatch], the failure toast for a report without. So it shows
    the success toast only when the identity found for the email and the
    one non-deleted row of the email have the same identifier, and the
    failure toast only when their identifiers differ. *)
Theorem handleTestSync_outcomes env a :
  let a' := handleTestSync env a in
  let email := FormData.email (formData (view a)) in
  let d := db (remote_state a) in
  view a' = view a /\
  db (remote_state a') = d /\
  (email = "" ->
   remote_state a' = remote_state a /\
   hook a' = show_toast (toast_error "Digite um email para testar") (hook a)) /\
  (email <> "" ->
   exists o s',
     testUserSync env email (remote_state a) = (returned o, s') /\
     remote_state a' = s' /\
     hook a' = match o with
               | None => hook a
               | Some rep =>
                   show_toast (if idsMatch rep
                               then toast_success "✅ IDs sincronizados corretamente!"
                               else toast_error "❌ IDs não estão sincronizados")
                     (hook a)
               end) /\
  (email <> "" ->
   hook a' = hook a \/
   exists au p,
     find (fun u => auth.email u =? email) (auth_users d) = Some au /\
     active_rows email (tbl_usuarios d) = [p] /\
     ((auth.id au = usuarios.id p /\
       hook a' = show_toast (toast_success "✅ IDs sincronizados corretamente!")
                   (hook a)) \/
      (auth.id au <> usuarios.id p /\
       hook a' = show_toast (toast_error "❌ IDs não estão sincronizados")
                   (hook a)))).
Proof.
  intros a' email d. subst a'. unfold handleTestSync. fold email. unfold is_empty.
  destruct (String.eqb_spec email "") as [E|E].
  - cbn [view remote_state hook].
    split; [reflexivity|]. split; [reflexivity|].
    split; [auto|]. split; intros; contradiction.
  - destruct (testUserSync env email (remote_state a)) as [c s'] eqn:H.
    destruct (testUserSync_result _ _ _ _ _ H) as (Hdb & Hc).
    destruct Hc as [->|(au & p & Hf & Hp & ->)]; cbn [view remote_state hook idsMatch].
    + split; [reflexivity|]. split; [exact Hdb|]. split; [contradiction|].
      split; intros _; [|left; reflexivity].
      eexists _, _. split; [reflexivity|]. split; reflexivity.
    + split; [reflexivity|]. split; [exact Hdb|]. split; [contradiction|].
      split; intros _.
      * eexists _, _. split; [reflexivity|]. split; reflexivity.
      * right. exists au, p. split; [exact Hf|]. split; [exact Hp|].
        destruct (String.eqb_spec (auth.id au) (usuarios.id p)); [left|right]; auto.
Qed.

Ltac settle_errors :=
  unfold truthy_opt;
  cbn [get_error set_error set_data get_data FormErrors.email FormErrors.password
         FormErrors.confirmPassword FormErrors.nomeCliente FormData.email
         FormData.password FormData.confirmPassword FormData.nomeCliente];
  repeat match goal with
         | E : is_empty ?s = _ |- context [is_empty ?s] => rewrite E
         end;
  cbn [negb get_error set_error FormErrors.email FormErrors.password
         FormErrors.confirmPassword FormErrors.nomeCliente];
  repeat match goal with
         | E : is_empty ?s = _ |- context [is_empty ?s] => rewrite E
         end;
  try reflexivity.

(** X24: edits of the form compose as edits of a record: an edit sets
    its field to the value typed and leaves that field without a
    visible message; two edits of different fields give the same state
    in either order; and of two edits of one field the later one wins. *)
Theorem handleInputChange_edits f g v w m :
  get_data f (formData (handleInputChange f v m)) = v /\
  truthy_opt (get_error f (formErrors (handleInputChange f v m))) = false /\
  (f <> g ->
   get_data g (formData (handleInputChange f v m)) = get_data g (formData m) /\
   handleInputChange f v (handleInputChange g w m)
   = handleInputChange g w (handleInputChange f v m)) /\
  handleInputChange f v (handleInputChange f w m) = handleInputChange f v m.
Proof.
  destruct m as [o [e p q n] sp sc [ee ep eq en] k].
  unfold handleInputChange.
  cbn [isOpen formData showPassword showConfirmPassword formErrors onSuccess_calls].
  destruct ee as [s1|], ep as [s2|], eq as [s3|], en as [s4|];
    try destruct (is_empty s1) eqn:E1; try destruct (is_empty s2) eqn:E2;
    try destruct (is_empty s3) eqn:E3; try destruct (is_empty s4) eqn:E4.
  all: split; [destruct f; reflexivity|].
  all: split; [destruct f; settle_errors|].
  all: split; [|destruct f; settle_errors; settle_errors].
  all: intros Hfg; split; [destruct f, g; try reflexivity; congruence|].
  all: destruct f, g; try congruence; settle_errors; settle_errors.
Qed.

Lemma handleInputChange_edits_witness :
  f_email <> f_password /\
  handleInputChange f_email "a@b.com"
    (handleInputChange f_password "secret1" (view (app_with form_short db0)))
  = handleInputChange f_password "secret1"
      (handleInputChange f_email "a@b.com" (view (app_with form_short db0))).
Proof.
  assert (H : f_email <> f_password) by discriminate.
  split; [exact H|].
  exact (proj2 (proj1 (proj2 (proj2 (handleInputChange_edits f_email f_password
                                       "a@b.com" "secret1"
                                       (view (app_with form_short db0))))) H)).
Defined.

(** ** How step 1 can end *)


(** ** The further properties on concrete data *)

Lemma clean_duplicate_usuarios_only_deletes_witness :
  NoDup (map usuarios.id tbl_duplicates) /\
  NoDup (map usuarios.id (clean_duplicate_usuarios "a@b.com" tbl_duplicates)) /\
  other_rows "a@b.com" (clean_duplicate_usuarios "a@b.com" tbl_duplicates) = [bia].
Proof.
  assert (Hnd : NoDup (map usuarios.id tbl_duplicates)).
  { repeat constructor; simpl; intuition discriminate. }
  destruct (clean_duplicate_usuarios_only_deletes "a@b.com" tbl_duplicates)
    as (_ & Hother & Hkeep).
  split; [exact Hnd|]. split; [exact (Hkeep Hnd)|exact Hother].
Defined.

Lemma clean_duplicate_usuarios_never_empties_an_active_email_witness :
  active_rows "a@b.com" [old_ana; bia] = [] /\
  rows_with_email "a@b.com" (clean_duplicate_usuarios "a@b.com" [old_ana; bia]) = [] /\
  active_rows "a@b.com" tbl_duplicates <> [] /\
  active_rows "a@b.com" (clean_duplicate_usuarios "a@b.com" tbl_duplicates) <> [].
Proof.
  destruct (clean_duplicate_usuarios_never_empties_an_active_email "a@b.com"
              [old_ana; bia]) as (Hnone & _ & _).
  destruct (clean_duplicate_usuarios_never_empties_an_active_email "a@b.com"
              tbl_duplicates) as (_ & Hsome & _).
  assert (Hact : active_rows "a@b.com" tbl_duplicates <> []) by discriminate.
  split; [reflexivity|]. split; [exact (Hnone eq_refl)|].
  split; [exact Hact|exact (Hsome Hact)].
Defined.


Lemma createPortalUser_call_sequence_witness :
  calls (snd run_sync_rejected)
  = [rpc_clean_duplicate_usuarios "a@b.com"; select_usuarios_eq_email "a@b.com";
     admin_createUser "a@b.com" "secret1" (metadata "Ana" "c-1");
     rpc_sync_user_after_auth_creation "X" "a@b.com" "Ana" "c-1";
     admin_deleteUser "X"] /\
  (calls (snd run_sync_rejected)
   = firstn 1 [rpc_clean_duplicate_usuarios "a@b.com";
               select_usuarios_eq_email "a@b.com";
               admin_createUser "a@b.com" "secret1" (metadata "Ana" "c-1")] \/
   calls (snd run_sync_rejected)
   = firstn 2 [rpc_clean_duplicate_usuarios "a@b.com";
               select_usuarios_eq_email "a@b.com";
               admin_createUser "a@b.com" "secret1" (metadata "Ana" "c-1")] \/
   calls (snd run_sync_rejected)
   = [rpc_clean_duplicate_usuarios "a@b.com"; select_usuarios_eq_email "a@b.com";
      admin_createUser "a@b.com" "secret1" (metadata "Ana" "c-1")] \/
   exists X,
     provider_id env_sync_rejected = Some X /\
     (calls (snd run_sync_rejected)
      = ([rpc_clean_duplicate_usuarios "a@b.com"; select_usuarios_eq_email "a@b.com";
          admin_createUser "a@b.com" "secret1" (metadata "Ana" "c-1")]
           ++ [rpc_sync_user_after_auth_creation X "a@b.com" "Ana" "c-1"])%list \/
      calls (snd run_sync_rejected)
      = ([rpc_clean_duplicate_usuarios "a@b.com"; select_usuarios_eq_email "a@b.com";
          admin_createUser "a@b.com" "secret1" (metadata "Ana" "c-1")]
           ++ [rpc_sync_user_after_auth_creation X "a@b.com" "Ana" "c-1";
               admin_deleteUser X])%list \/
      calls (snd run_sync_rejected)
      = ([rpc_clean_duplicate_usuarios "a@b.com"; select_usuarios_eq_email "a@b.com";
          admin_createUser "a@b.com" "secret1" (metadata "Ana" "c-1")]
           ++ [rpc_sync_user_after_auth_creation X "a@b.com" "Ana" "c-1";
               select_usuarios_eq_id X])%list)).
Proof.
  split; [reflexivity|].
  exact (createPortalUser_call_sequence env_sync_rejected "a@b.com" "secret1" "Ana"
           "c-1" db0 (fst run_sync_rejected) (snd run_sync_rejected) eq_refl).
Defined.

Lemma createPortalUser_frame_witness :
  other_rows "a@b.com" (tbl_usuarios (db (snd run_leftover)))
  = other_rows "a@b.com" (tbl_usuarios db_leftover) /\
  map clientes.id (tbl_clientes (db (snd run_success)))
  = map clientes.id (tbl_clientes db0).
Proof.
  split.
  - exact (proj1 (createPortalUser_frame (all_delivered "X" 7%Z) "a@b.com" "secret1"
                    "Ana" "c-1" db_leftover (fst run_leftover) (snd run_leftover)
                    eq_refl)).
  - exact (proj1 (proj2 (createPortalUser_frame (all_delivered "X" 7%Z) "a@b.com"
                           "secret1" "Ana" "c-1" db0 (fst run_success)
                           (snd run_success) eq_refl))).
Defined.

Lemma existence_check_error_by_code_witness :
  In (mk_event (select_usuarios_eq_email "a@b.com") (resolved None (Some timed_out)))
     (trace (snd run_check_rejected)) /\
  fst run_check_rejected
  = returned
      (mk_response false
         (Some "Erro ao verificar usuário existente: canceling statement due to statement timeout")
         None None) /\
  calls (snd run_check_rejected)
  = [rpc_clean_duplicate_usuarios "a@b.com"; select_usuarios_eq_email "a@b.com"].
Proof.
  assert (Hin : In (mk_event (select_usuarios_eq_email "a@b.com")
                             (resolved None (Some timed_out)))
                   (trace (snd run_check_rejected))).
  { simpl. tauto. }
  split; [exact Hin|].
  destruct (existence_check_error_by_code env_check_rejected "a@b.com" "secret1" "Ana"
              "c-1" db0 (fst run_check_rejected) (snd run_check_rejected) None
              timed_out eq_refl Hin) as (H1 & H2 & _).
  split; [exact H1|exact H2].
Defined.

Lemma missing_user_is_a_failure_witness :
  In (mk_event (admin_createUser "a@b.com" "secret1" (metadata "Ana" "c-1"))
               (resolved None None))
     (trace (snd run_no_user)) /\
  fst run_no_user
  = returned (mk_response false (Some "Usuário não foi criado corretamente")
                None None) /\
  db (snd run_no_user) = db0.
Proof.
  assert (Hin : In (mk_event (admin_createUser "a@b.com" "secret1" (metadata "Ana" "c-1"))
                             (resolved None None))
                   (trace (snd run_no_user))).
  { simpl. tauto. }
  split; [exact Hin|].
  destruct (missing_user_is_a_failure env_no_user "a@b.com" "secret1" "Ana" "c-1"
              db0 (fst run_no_user) (snd run_no_user) eq_refl Hin) as (H1 & _ & H3).
  split; [exact H1|exact H3].
Defined.

Lemma sync_rejection_is_not_compensated_witness :
  In (mk_event (rpc_sync_user_after_auth_creation "X" "a@b.com" "Ana" "c-1")
               (promise_rejected (Error "Failed to fetch")))
     (trace (snd run_sync_thrown)) /\
  fst run_sync_thrown
  = returned (mk_response false (Some "Failed to fetch") None None) /\
  auth_users (db (snd run_sync_thrown)) = [identity "X" "a@b.com" "Ana" "c-1"] /\
  tbl_usuarios (db (snd run_sync_thrown)) = [].
Proof.
  assert (Hin : In (mk_event (rpc_sync_user_after_auth_creation "X" "a@b.com" "Ana" "c-1")
                             (promise_rejected (Error "Failed to fetch")))
                   (trace (snd run_sync_thrown))).
  { simpl. tauto. }
  split; [exact Hin|].
  destruct (sync_rejection_is_not_compensated env_sync_thrown "a@b.com" "secret1"
              "Ana" "c-1" db0 (fst run_sync_thrown) (snd run_sync_thrown) "X"
              (Error "Failed to fetch") eq_refl Hin) as (H1 & _ & H3 & H4 & _).
  split; [exact H1|]. split; [exact H3|exact H4].
Defined.

Lemma createPortalUser_response_shape_witness :
  exists r,
    fst run_success = returned r /\
    error r = None /\
    message r = Some "Portal criado com sucesso! O cliente pode agora fazer login." /\
    userId r = Some "X".
Proof.
  destruct (createPortalUser_response_shape (all_delivered "X" 7%Z) "a@b.com"
              "secret1" "Ana" "c-1" (start db0) (fst run_success) (snd run_success)
              eq_refl) as (r & Hr & Hshape).
  exists r. split; [exact Hr|].
  assert (E : r = response_ok).
  { vm_compute in Hr. now injection Hr as <-. }
  subst r. cbn [success response_ok] in Hshape.
  destruct Hshape as (H1 & H2 & H3 & _). auto.
Defined.

Lemma testUserSync_report_conditions_witness :
  (exists rep,
      fst (testUserSync (all_delivered "X" 7%Z) "a@b.com" (start db_mismatched))
      = returned (Some rep)) /\
  calls (snd (testUserSync (all_delivered "X" 7%Z) "b@b.com" (start db_mismatched)))
  = [admin_listUsers].
Proof.
  split.
  - apply (proj1 (testUserSync_report_conditions (all_delivered "X" 7%Z) "a@b.com"
                    db_mismatched _ _ eq_refl)).
    split; [reflexivity|]. split.
    + exists (identity "Y" "a@b.com" "Ana" "c-1"). simpl. tauto.
    + split; [reflexivity|]. exists ana. reflexivity.
  - apply (proj2 (proj2 (testUserSync_report_conditions (all_delivered "X" 7%Z)
                           "b@b.com" db_mismatched _ _ eq_refl))).
    right. intros a [<-|[]]. discriminate.
Defined.

Lemma email_pattern_accepts_witness :
  regex_test email_pattern "a@b.com" = true /\
  exists local before after : list ascii,
    list_ascii_of_string "a@b.com"
    = (local ++ "@"%char :: before ++ "."%char :: after)%list /\
    local <> [] /\ before <> [] /\ after <> [].
Proof.
  split; [reflexivity|].
  destruct (proj1 (email_pattern_accepts "a@b.com") eq_refl)
    as (l & b & a & E & Hl & Hb & Ha & _).
  exists l, b, a. auto.
Defined.

Lemma validateForm_accepts_witness :
  fst (validateForm (view (app_with form_ok db0))) = true /\
  (6 <= String.length "secret1")%nat /\
  fst (validateForm (view (app_with form_short db0))) = false.
Proof.
  split; [reflexivity|].
  split.
  - exact (proj1 (proj2 (proj1 (validateForm_accepts (view (app_with form_ok db0)))
                           eq_refl))).
  - destruct (fst (validateForm (view (app_with form_short db0)))) eqn:E;
      [|reflexivity].
    apply (validateForm_accepts (view (app_with form_short db0))) in E.
    destruct E as (_ & Hlen & _). simpl in Hlen. lia.
Defined.

Lemma handleTestSync_outcomes_witness :
  hook (handleTestSync (all_delivered "X" 7%Z) (app_diagnosing "" db_synced))
  = show_toast (toast_error "Digite um email para testar") ui0 /\
  "a@b.com" <> "" /\
  (exists s',
      testUserSync (all_delivered "X" 7%Z) "a@b.com" (start db_two_profiles)
      = (returned None, s') /\
      hook (handleTestSync (all_delivered "X" 7%Z)
              (app_diagnosing "a@b.com" db_two_profiles)) = ui0) /\
  hook (handleTestSync (all_delivered "X" 7%Z) (app_diagnosing "a@b.com" db_synced))
  = show_toast (toast_success "✅ IDs sincronizados corretamente!") ui0 /\
  hook (handleTestSync (all_delivered "X" 7%Z) (app_diagnosing "a@b.com" db_mismatched))
  = show_toast (toast_error "❌ IDs não estão sincronizados") ui0.
Proof.
  assert (Hne : "a@b.com" <> "") by discriminate.
  split; [|split; [exact Hne|split; [|split]]].
  - destruct (handleTestSync_outcomes (all_delivered "X" 7%Z)
                (app_diagnosing "" db_synced)) as (_ & _ & Hempty & _).
    exact (proj2 (Hempty eq_refl)).
  - destruct (handleTestSync_outcomes (all_delivered "X" 7%Z)
                (app_diagnosing "a@b.com" db_two_profiles))
      as (_ & _ & _ & Hrun & _).
    destruct (Hrun Hne) as (o & s' & Hsync & _ & Hhook).
    assert (Ho : o = None).
    { vm_compute in Hsync. now injection Hsync as <- _. }
    subst o. exists s'. split; [exact Hsync|exact Hhook].
  - destruct (handleTestSync_outcomes (all_delivered "X" 7%Z)
                (app_diagnosing "a@b.com" db_synced))
      as (_ & _ & _ & Hrun & _).
    destruct (Hrun Hne) as (o & s' & Hsync & _ & Hhook).
    assert (Ho : o = Some (mk_report "X" "X" true)).
    { vm_compute in Hsync. now injection Hsync as <- _. }
    subst o. exact Hhook.
  - destruct (handleTestSync_outcomes (all_delivered "X" 7%Z)
                (app_diagnosing "a@b.com" db_mismatched))
      as (_ & _ & _ & Hrun & _).
    destruct (Hrun Hne) as (o & s' & Hsync & _ & Hhook).
    assert (Ho : o = Some (mk_report "Y" "X" false)).
    { vm_compute in Hsync. now injection Hsync as <- _. }
    subst o. exact Hhook.
Defined.

